(** * Interactive testing application: scoring and test sessions

    A shallow embedding of [test_app.py]: the [Question] class with its
    [check_answer] method and the [TestSession] class with [start_test],
    [get_current_question], [submit_answer] and [finish_test]; further
    [Question.__init__], [show_detailed_results], the question summary and
    the interactive test of [TestApp], and of [web_app.py] the upload
    filter and the test pages.

    Conventions of the embedding.
    - A Python [str] is a [string]: a sequence of characters with code points
      0..255 (the Latin-1 range, on which [str.lower] is closed).  The
      built-ins [str.lower], [str.strip] and [int] are written out for that
      range.
    - Python integers are [Z]; the position index of a session only counts
      upwards from 0 and is a [nat].
    - [datetime.now()] is an input of the methods that read the clock: a
      time stamp is a [Z] (microseconds), a [timedelta] their difference.
    - [total_points / max_points * 100] is kept as the exact rational ([Q])
      that Python's binary64 float rounds.
    - A method is a function from the session to an outcome (an exception or
      a value) and the session it leaves behind.  Text written to the
      terminal by [print] is not part of the state. *)

From Stdlib Require Import ZArith QArith List String Ascii Bool Arith Lia.
From Stdlib Require Import DecimalString DecimalNat Permutation.
Import ListNotations.

Set Implicit Arguments.

(** ** Python's string built-ins on the Latin-1 range *)

Module PyStr.

Local Open Scope nat_scope.

Definition ord (c : ascii) : nat := nat_of_ascii c.
Definition chr (n : nat) : ascii := ascii_of_nat n.

Definition between (lo hi n : nat) : bool := (lo <=? n) && (n <=? hi).

(** [str.isspace] of one character: TAB..CR, FS..US, SPACE, NEL, NBSP. *)
Definition isspace (c : ascii) : bool :=
  let n := ord c in
  between 9 13 n || between 28 31 n || (n =? 32) || (n =? 133) || (n =? 160).

(** The characters [int] skips around a number: [isspace] without FS..US. *)
Definition int_isspace (c : ascii) : bool :=
  let n := ord c in
  between 9 13 n || (n =? 32) || (n =? 133) || (n =? 160).

(** [str.lower] of one character: A..Z and the accented capitals
    U+00C0..U+00DE apart from the multiplication sign U+00D7. *)
Definition isupper (c : ascii) : bool :=
  let n := ord c in
  between 65 90 n || (between 192 222 n && negb (n =? 215)).

Definition lower_char (c : ascii) : ascii :=
  if isupper c then chr (ord c + 32) else c.

Fixpoint lower (s : string) : string :=
  match s with
  | EmptyString => EmptyString
  | String c t => String (lower_char c) (lower t)
  end.

Definition is_empty (s : string) : bool :=
  match s with EmptyString => true | String _ _ => false end.

Fixpoint lstrip (s : string) : string :=
  match s with
  | EmptyString => EmptyString
  | String c t => if isspace c then lstrip t else s
  end.

Fixpoint rstrip (s : string) : string :=
  match s with
  | EmptyString => EmptyString
  | String c t =>
      let t' := rstrip t in
      if isspace c && is_empty t' then EmptyString else String c t'
  end.

(** [str.strip()] with no argument. *)
Definition strip (s : string) : string := rstrip (lstrip s).

(** *** [int(s)] in base 10

    Optional blanks, an optional sign, decimal digits in which single
    underscores may separate digits, optional blanks.  [None] stands for
    [ValueError].  (CPython also raises [ValueError] past 4300 digits; no
    caller here can tell that apart from a number that large.) *)

Definition digit_val (c : ascii) : option Z :=
  let n := ord c in
  if between 48 57 n then Some (Z.of_nat (n - 48)) else None.

Fixpoint all_int_space (s : string) : bool :=
  match s with
  | EmptyString => true
  | String c t => int_isspace c && all_int_space t
  end.

(** [digits acc s]: [s] comes right after a digit, [acc] is the value read
    so far. *)
Fixpoint digits (acc : Z) (s : string) : option Z :=
  match s with
  | EmptyString => Some acc
  | String c t =>
      match digit_val c with
      | Some d => digits (10 * acc + d)%Z t
      | None =>
          if (ord c =? 95) then
            match t with
            | String c' t' =>
                match digit_val c' with
                | Some d => digits (10 * acc + d)%Z t'
                | None => None
                end
            | EmptyString => None
            end
          else if all_int_space s then Some acc else None
      end
  end.

Definition unsigned (s : string) : option Z :=
  match s with
  | String c t =>
      match digit_val c with
      | Some d => digits d t
      | None => None
      end
  | EmptyString => None
  end.

Fixpoint skip_int_space (s : string) : string :=
  match s with
  | EmptyString => EmptyString
  | String c t => if int_isspace c then skip_int_space t else s
  end.

Definition int (s : string) : option Z :=
  match skip_int_space s with
  | String c t =>
      if ord c =? 43 then unsigned t
      else if ord c =? 45 then option_map Z.opp (unsigned t)
      else unsigned (String c t)
  | EmptyString => None
  end.

End PyStr.

Local Open Scope string_scope.

(** ** [class Question] *)

Module Question.

Record t : Type := mk {
  id : string;
  question : string;
  type : string;
  options : list string;
  correct_answer : string;
  explanation : string;
  points : Z;
  category : string
}.

(** The words [check_answer] reads as true for a [true_false] question. *)
Definition true_words : list string := [ "true"; "t"; "1"; "yes"; "y" ].

(** [x in xs] on a list of strings. *)
Definition str_in (x : string) (xs : list string) : bool :=
  existsb (String.eqb x) xs.

(** [check_answer]: the pair (is the answer correct, points earned).
    A [ValueError] of [int] is caught and scores [(False, 0)]; a number
    outside the options leaves the [try] block and reaches the last
    [return False, 0]. *)
Definition check_answer (self : t) (user_answer : string) : bool * Z :=
  if type self =? "multiple_choice" then
    match PyStr.int user_answer with
    | Some n =>
        let choice_index := (n - 1)%Z in
        if ((0 <=? choice_index) && (choice_index <? Z.of_nat (List.length (options self))))%Z then
          match nth_error (options self) (Z.to_nat choice_index) with
          | Some selected =>
              (selected =? correct_answer self,
               if selected =? correct_answer self then points self else 0%Z)
          | None => (false, 0%Z)
          end
        else (false, 0%Z)
    | None => (false, 0%Z)
    end
  else if type self =? "true_false" then
    let answer_bool := str_in (PyStr.strip (PyStr.lower user_answer)) true_words in
    let correct_bool := str_in (PyStr.strip (PyStr.lower (correct_answer self))) true_words in
    (Bool.eqb answer_bool correct_bool,
     if Bool.eqb answer_bool correct_bool then points self else 0%Z)
  else if str_in (type self) [ "fill_blank"; "short_answer" ] then
    let user_clean := PyStr.strip (PyStr.lower user_answer) in
    let correct_clean := PyStr.strip (PyStr.lower (correct_answer self)) in
    (user_clean =? correct_clean,
     if user_clean =? correct_clean then points self else 0%Z)
  else (false, 0%Z).

End Question.

(** ** The result dictionary appended by [submit_answer] *)

Module Result.

Record t : Type := mk {
  question_id : string;
  question : string;
  user_answer : string;
  correct_answer : string;
  is_correct : bool;
  points_earned : Z;
  max_points : Z;
  explanation : string
}.

End Result.

(** ** Exceptions and the session monad *)

Inductive exception : Type :=
| IndexError
| TypeError.

(** The class name of an exception, as a caller sees it. *)
Definition exception_name (e : exception) : string :=
  match e with
  | IndexError => "IndexError"
  | TypeError => "TypeError"
  end.

(** ** [class TestSession] *)

Module TestSession.

Record t : Type := mk {
  questions : list Question.t;
  results : list Result.t;
  start_time : option Z;
  end_time : option Z;
  current_question_index : nat
}.

(** A method body: runs on a session, ends in an exception or a value, and
    leaves a session behind in both cases. *)
Definition M (A : Type) : Type := t -> (exception + A) * t.

Definition ret {A} (a : A) : M A := fun self => (inr a, self).
Definition raise {A} (e : exception) : M A := fun self => (inl e, self).
Definition bind {A B} (m : M A) (k : A -> M B) : M B :=
  fun self =>
    match m self with
    | (inr a, self') => k a self'
    | (inl e, self') => (inl e, self')
    end.
Definition get : M t := fun self => (inr self, self).
Definition put (s : t) : M unit := fun _ => (inr tt, s).

Declare Scope session_scope.
Delimit Scope session_scope with session.
Notation "x <- m ;; k" := (bind m (fun x => k))
  (at level 61, m at next level, right associativity) : session_scope.
Notation "m ;; k" := (bind m (fun _ => k))
  (at level 61, right associativity) : session_scope.
Local Open Scope session_scope.

(** [__init__] *)
Definition init (questions : list Question.t) : t :=
  mk questions [] None None 0.

(** The attribute assignments of the methods. *)
Definition set_start_time (v : Z) : M unit :=
  self <- get ;;
  put (mk (questions self) (results self) (Some v) (end_time self)
          (current_question_index self)).

Definition set_end_time (v : Z) : M unit :=
  self <- get ;;
  put (mk (questions self) (results self) (start_time self) (Some v)
          (current_question_index self)).

(** [self.results.append(result)] *)
Definition results_append (r : Result.t) : M unit :=
  self <- get ;;
  put (mk (questions self) (results self ++ [r]) (start_time self) (end_time self)
          (current_question_index self)).

(** [self.current_question_index += 1] *)
Definition advance : M unit :=
  self <- get ;;
  put (mk (questions self) (results self) (start_time self) (end_time self)
          (current_question_index self + 1)).

(** [start_test], reading the clock as [now]. *)
Definition start_test (now : Z) : M unit :=
  set_start_time now.

(** [get_current_question]: the list lookup raises [IndexError] when the
    index is not below the length. *)
Definition get_current_question : M Question.t :=
  self <- get ;;
  match nth_error (questions self) (current_question_index self) with
  | Some q => ret q
  | None => raise IndexError
  end.

Definition submit_answer (answer : string) : M bool :=
  question <- get_current_question ;;
  let (is_correct, points) := Question.check_answer question answer in
  let result :=
    Result.mk (Question.id question) (Question.question question) answer
              (Question.correct_answer question) is_correct points
              (Question.points question) (Question.explanation question) in
  results_append result ;;
  advance ;;
  self <- get ;;
  ret (current_question_index self <? List.length (questions self))%nat.

(** [sum(... for r in ...)] over integers. *)
Definition sum (l : list Z) : Z := fold_left Z.add l 0%Z.

(** The dictionary returned by [finish_test].  Its ['results'] entry is
    the session's own list object, not a copy: it is read through the
    session (see [summary_results]). *)
Record summary : Type := mk_summary {
  total_points : Z;
  max_points : Z;
  percentage : Q;
  duration : Z
}.

Definition summary_results (sm : summary) (self : t) : list Result.t :=
  results self.

(** [end_time - start_time]: a [datetime] minus [None] is a [TypeError]. *)
Definition elapsed : M Z :=
  self <- get ;;
  match end_time self, start_time self with
  | Some e, Some s => ret (e - s)%Z
  | _, _ => raise TypeError
  end.

(** [finish_test], reading the clock as [now]. *)
Definition finish_test (now : Z) : M summary :=
  set_end_time now ;;
  self <- get ;;
  let total_points := sum (map Result.points_earned (results self)) in
  let max_points := sum (map Result.max_points (results self)) in
  let percentage :=
    if (max_points >? 0)%Z
    then (inject_Z total_points / inject_Z max_points * 100)%Q
    else 0%Q in
  d <- elapsed ;;
  ret (mk_summary total_points max_points percentage d).

(** *** Callers *)

(** One call of a method from outside. *)
Inductive call : Type :=
| StartTest (now : Z)
| SubmitAnswer (answer : string)
| FinishTest (now : Z).

(** The session a call leaves behind, whether it returned or raised. *)
Definition after (c : call) (self : t) : t :=
  match c with
  | StartTest now => snd (start_test now self)
  | SubmitAnswer answer => snd (submit_answer answer self)
  | FinishTest now => snd (finish_test now self)
  end.

(** The sessions a caller can see: created by [__init__] on [qs], then
    any calls in any order. *)
Inductive reachable (qs : list Question.t) : t -> Prop :=
| reach_init : reachable qs (init qs)
| reach_call : forall self c, reachable qs self -> reachable qs (after c self).

(** [submit_answer] called once per answer of a list, in order; stops at
    the first exception. *)
Fixpoint submit_all (answers : list string) : M (list bool) :=
  match answers with
  | [] => ret []
  | a :: rest =>
      b <- submit_answer a ;;
      bs <- submit_all rest ;;
      ret (b :: bs)
  end.

End TestSession.

(** ** The wording of the specification, for comparison with the code *)

Module Spec.

(** A string of white space only. *)
Fixpoint blank (s : string) : bool :=
  match s with
  | EmptyString => true
  | String c t => PyStr.isspace c && blank t
  end.

Definition starts_with_space (s : string) : bool :=
  match s with
  | EmptyString => false
  | String c _ => PyStr.isspace c
  end.

Fixpoint ends_with_space (s : string) : bool :=
  match s with
  | EmptyString => false
  | String c EmptyString => PyStr.isspace c
  | String _ t => ends_with_space t
  end.

(** [core] is [s] without its surrounding white space. *)
Definition trimmed (s core : string) : Prop :=
  exists l r,
    s = l ++ core ++ r
    /\ blank l = true /\ blank r = true
    /\ starts_with_space core = false /\ ends_with_space core = false.

(** Two strings that differ in the case of their letters only. *)
Inductive caseless : string -> string -> Prop :=
| caseless_nil : caseless EmptyString EmptyString
| caseless_cons : forall c d s t,
    PyStr.lower_char c = PyStr.lower_char d ->
    caseless s t ->
    caseless (String c s) (String d t).

(** Equal up to case and surrounding white space. *)
Definition same_text (a b : string) : Prop :=
  exists ca cb, trimmed a ca /\ trimmed b cb /\ caseless ca cb.

(** The boolean-word recognizer: a trimmed, case-insensitive member of
    the five words. *)
Definition true_word (s : string) : Prop :=
  exists w, In w [ "true"; "t"; "1"; "yes"; "y" ] /\ same_text s w.

(** The decimal numeral of a number, as a user types a 1-based index. *)
Definition numeral (k : nat) : string := NilEmpty.string_of_uint (Nat.to_uint k).

(** The error names of the specification's taxonomy. *)
Definition OutOfSequence : string := "OutOfSequence".
Definition AlreadyFinished : string := "AlreadyFinished".

End Spec.

(** ** Concrete data: the two questions of [demo.py] *)

Module Demo.

Definition demo1 : Question.t :=
  Question.mk "demo1" "What is 2 + 2?" "multiple_choice" [ "3"; "4"; "5"; "6" ] "4"
              "Basic arithmetic: 2 + 2 = 4" 1 "Math".

Definition demo2 : Question.t :=
  Question.mk "demo2" "Python is easy to learn." "true_false" [] "True"
              "Python is known for its simple and readable syntax." 1 "Programming".

Definition questions : list Question.t := [ demo1; demo2 ].

(** A fill-in question whose answer is the word of the specification's
    example, and a question of a type [check_answer] does not know. *)
Definition skin : Question.t :=
  Question.mk "bio1" "The largest organ of the human body is the ____." "fill_blank" []
              "skin" "" 2 "Biology".

Definition essay : Question.t :=
  Question.mk "e1" "Discuss." "essay" [] "anything" "" 5 "General".

(** Sessions on the two demo questions: started and answered as [demo.py]
    does; stopped after the first answer; answered wrongly twice. *)
Definition started : TestSession.t :=
  TestSession.after (TestSession.StartTest 0) (TestSession.init questions).

Definition answered : TestSession.t :=
  TestSession.after (TestSession.SubmitAnswer "True")
    (TestSession.after (TestSession.SubmitAnswer "2") started).

Definition half : TestSession.t :=
  TestSession.after (TestSession.SubmitAnswer "2") started.

Definition failed : TestSession.t :=
  TestSession.after (TestSession.SubmitAnswer "False")
    (TestSession.after (TestSession.SubmitAnswer "1") started).

End Demo.

(** The dictionary [submit_answer] builds for question [q] and answer [a]. *)
Definition recorded (q : Question.t) (a : string) : Result.t :=
  Result.mk (Question.id q) (Question.question q) a (Question.correct_answer q)
            (fst (Question.check_answer q a)) (snd (Question.check_answer q a))
            (Question.points q) (Question.explanation q).

(** What every session a caller can see satisfies: the questions are the
    ones it was created with, the index counts the results, and the results
    are the records of the questions before the index, in order. *)
Definition consistent (qs : list Question.t) (s : TestSession.t) : Prop :=
  TestSession.questions s = qs
  /\ TestSession.current_question_index s = List.length (TestSession.results s)
  /\ (TestSession.current_question_index s <= List.length qs)%nat
  /\ Forall2 (fun q r => exists a, r = recorded q a)
             (firstn (TestSession.current_question_index s) qs)
             (TestSession.results s).

(** ** [Question.__init__]: a question built from a loaded dictionary *)

(** The dictionary a question is built from: a key may be missing; a value
    that is present has the type of the question-set format. *)
Module Data.

Record t : Type := mk {
  id : option string;
  question : option string;
  type : option string;
  options : option (list string);
  correct_answer : option string;
  explanation : option string;
  points : option Z;
  category : option string
}.

(** [data.get(key, default)] *)
Definition get {A : Type} (value : option A) (default : A) : A :=
  match value with
  | Some v => v
  | None => default
  end.

(** The dictionary without any key. *)
Definition empty : t := mk None None None None None None None None.

End Data.

(** [Question(data)] *)
Definition Question_init (data : Data.t) : Question.t :=
  Question.mk (Data.get (Data.id data) "")
              (Data.get (Data.question data) "")
              (Data.get (Data.type data) "multiple_choice")
              (Data.get (Data.options data) [])
              (Data.get (Data.correct_answer data) "")
              (Data.get (Data.explanation data) "")
              (Data.get (Data.points data) 1%Z)
              (Data.get (Data.category data) "General").

(** ** [class TestApp]: the question summary *)

Module TestApp.

(** One value of the [categories] dictionary: ['count'] and ['points']. *)
Definition entry : Type := (Z * Z)%type.

(** The [categories] dictionary, its keys in the order they were inserted. *)
Definition categories : Type := list (string * entry).

(** [key in d] *)
Fixpoint contains (key : string) (d : categories) : bool :=
  match d with
  | [] => false
  | (k, _) :: rest => (k =? key) || contains key rest
  end.

(** [d[key]]; [None] stands for [KeyError]. *)
Fixpoint item (key : string) (d : categories) : option entry :=
  match d with
  | [] => None
  | (k, e) :: rest => if k =? key then Some e else item key rest
  end.

(** [d[key] = value] for a key that is not in [d]: appended. *)
Definition insert_new (key : string) (e : entry) (d : categories) : categories :=
  (d ++ [ (key, e) ])%list.

(** An update in place of the value under [key]. *)
Fixpoint update (key : string) (f : entry -> entry) (d : categories) : categories :=
  match d with
  | [] => []
  | (k, e) :: rest =>
      if k =? key then (k, f e) :: rest else (k, e) :: update key f rest
  end.

(** The body of the loop over the questions in [show_question_summary]. *)
Definition count_question (acc : categories * Z) (q : Question.t) : categories * Z :=
  let (cats, total_points) := acc in
  let category := Question.category q in
  let cats :=
    if contains category cats then cats else insert_new category (0, 0)%Z cats in
  let cats := update category (fun e => (fst e + 1, snd e)%Z) cats in
  let cats := update category (fun e => (fst e, snd e + Question.points q)%Z) cats in
  (cats, (total_points + Question.points q)%Z).

(** What [show_question_summary] computes before it prints: [None] when no
    questions are loaded, else the categories and the total points. *)
Definition show_question_summary (questions : list Question.t)
  : option (categories * Z) :=
  match questions with
  | [] => None
  | _ => Some (fold_left count_question questions ([], 0%Z))
  end.

(** *** [start_interactive_test] *)

(** What [input()] meets at the keyboard: a line, or Ctrl-C
    ([KeyboardInterrupt]).  An empty list of events is the end of the
    input ([EOFError], which the method does not catch). *)
Inductive keyboard : Type :=
| Line (text : string)
| CtrlC.

(** How the loop over the questions ends. *)
Inductive loop_end : Type :=
| AllAnswered
| Quit
| Interrupt
| EndOfInput
| Raised (e : exception).

Definition quit_words : list string := [ "quit"; "exit"; "q" ].
Definition yes_words : list string := [ "y"; "yes" ].

(** The [while] loop: one question and one [input()] per round. *)
Fixpoint answer_loop (keys : list keyboard) (s : TestSession.t)
  : loop_end * TestSession.t * list keyboard :=
  if (TestSession.current_question_index s
      <? List.length (TestSession.questions s))%nat
  then
    match TestSession.get_current_question s with
    | (inl e, s) => (Raised e, s, keys)
    | (inr question, s) =>
        match keys with
        | [] => (EndOfInput, s, [])
        | CtrlC :: rest => (Interrupt, s, rest)
        | Line text :: rest =>
            let answer := PyStr.strip text in
            if Question.str_in (PyStr.lower answer) quit_words
            then (Quit, s, rest)
            else
              match TestSession.submit_answer answer s with
              | (inl e, s) => (Raised e, s, rest)
              | (inr has_more, s) =>
                  if has_more then answer_loop rest s else (AllAnswered, s, rest)
              end
        end
    end
  else (AllAnswered, s, keys).

(** A yes/no prompt after the test: [None] at the end of the input, the
    answer otherwise; Ctrl-C is passed over and counts as no. *)
Definition ask_yes (keys : list keyboard) : option bool * list keyboard :=
  match keys with
  | [] => (None, [])
  | CtrlC :: rest => (Some false, rest)
  | Line text :: rest =>
      (Some (Question.str_in (PyStr.strip (PyStr.lower text)) yes_words), rest)
  end.

(** How [start_interactive_test] ends. *)
Inductive outcome : Type :=
| NoQuestions
| Cancelled
| Interrupted
| InputEnded
| Failed (e : exception)
| Completed (final_score : TestSession.summary) (show_details save : bool).

(** [start_interactive_test] on the loaded [questions].  [shuffled] is the
    order [random.shuffle] leaves the copy in, [now0] and [now1] are the
    clock readings of [start_test] and [finish_test].  Returns how the
    method ends and [self.test_session]; with [Completed] come the
    summary and whether the detailed results are shown and the results
    saved. *)
Definition start_interactive_test
    (questions : list Question.t) (test_session : option TestSession.t)
    (randomize : bool) (shuffled : list Question.t)
    (now0 now1 : Z) (keys : list keyboard)
  : outcome * option TestSession.t :=
  match questions with
  | [] => (NoQuestions, test_session)
  | _ =>
      let questions_to_use := if randomize then shuffled else questions in
      let s := TestSession.init questions_to_use in
      match TestSession.start_test now0 s with
      | (inl e, s) => (Failed e, Some s)
      | (inr _, s) =>
          match answer_loop keys s with
          | (Quit, s, _) => (Cancelled, Some s)
          | (Interrupt, s, _) => (Interrupted, Some s)
          | (EndOfInput, s, _) => (InputEnded, Some s)
          | (Raised e, s, _) => (Failed e, Some s)
          | (AllAnswered, s, keys) =>
              match TestSession.finish_test now1 s with
              | (inl e, s) => (Failed e, Some s)
              | (inr final_score, s) =>
                  match ask_yes keys with
                  | (None, _) => (InputEnded, Some s)
                  | (Some show_details, keys) =>
                      match ask_yes keys with
                      | (None, _) => (InputEnded, Some s)
                      | (Some save, _) =>
                          (Completed final_score show_details save, Some s)
                      end
                  end
              end
          end
      end
  end.

End TestApp.

(** ** [web_app.py]: the upload filter *)

Module WebApp.

Definition ALLOWED_EXTENSIONS : list string := [ "json" ].

(** ['.' in s] *)
Fixpoint has_dot (s : string) : bool :=
  match s with
  | EmptyString => false
  | String c t => (PyStr.ord c =? 46)%nat || has_dot t
  end.

(** [s.rsplit('.', 1)]: cut at the last dot, one part when there is none. *)
Fixpoint rsplit_dot (s : string) : list string :=
  match s with
  | EmptyString => [ EmptyString ]
  | String c t =>
      match rsplit_dot t with
      | stem :: ext :: _ => [ String c stem; ext ]
      | _ => if (PyStr.ord c =? 46)%nat then [ EmptyString; t ] else [ String c t ]
      end
  end.

(** [allowed_file]; the lookup of part 1 is only reached behind the test
    for a dot. *)
Definition allowed_file (filename : string) : bool :=
  has_dot filename
  && match nth_error (rsplit_dot filename) 1 with
     | Some ext => Question.str_in (PyStr.lower ext) ALLOWED_EXTENSIONS
     | None => false
     end.

(** *** The test pages *)

(** The keys of the Flask session the test pages use; a key may be
    missing.  ['test_start_time'] holds the clock reading that the code
    stores in ISO format and parses back. *)
Record Session : Type := mk_session {
  questions : option (list Data.t);
  test_questions : option (list Data.t);
  current_question : option nat;
  test_results : option (list Result.t);
  test_start_time : option Z;
  randomized : option bool
}.

(** What a page answers: a redirect to an endpoint, with the message it
    flashes if any, one of the two templates with its arguments, or the
    error page of an exception that no handler catches. *)
Inductive response : Type :=
| Redirect (endpoint : string) (flash : option string)
| TakeTestPage (question : Data.t) (progress total current_index : nat)
| TestCompletePage (results : list Result.t) (total_points max_points : Z)
                   (percentage : Q) (duration : string)
| ServerError (e : exception).

(** The dictionary [load_questions] keeps in the session for a question. *)
Definition question_dict (q : Question.t) : Data.t :=
  Data.mk (Some (Question.id q)) (Some (Question.question q))
          (Some (Question.type q)) (Some (Question.options q))
          (Some (Question.correct_answer q)) (Some (Question.explanation q))
          (Some (Question.points q)) (Some (Question.category q)).

(** [session['questions']] as [load_questions] builds it from the
    question dictionaries of the uploaded file. *)
Definition loaded_questions (raw : list Data.t) : list Data.t :=
  map (fun d => question_dict (Question_init d)) raw.

Definition no_questions_message : string :=
  "No questions loaded. Please load a questions file first.".

(** [start_test]: [randomize_arg] is the query argument if given,
    [sampled] what [random.sample] returns, [now] the clock reading. *)
Definition start_test (randomize_arg : option string) (sampled : list Data.t)
    (now : Z) (session : Session)
  : response * Session :=
  match Data.get (questions session) [] with
  | [] => (Redirect "load_questions" (Some no_questions_message), session)
  | loaded =>
      let randomize := PyStr.lower (Data.get randomize_arg "false") =? "true" in
      let questions' := if randomize then sampled else loaded in
      (Redirect "take_test" None,
       mk_session (questions session) (Some questions') (Some 0%nat) (Some [])
                  (Some now) (Some randomize))
  end.

(** [take_test] *)
Definition take_test (session : Session) : response * Session :=
  let questions := Data.get (test_questions session) [] in
  let current_index := Data.get (current_question session) 0%nat in
  if match questions with [] => true | _ => false end
     || (List.length questions <=? current_index)%nat
  then (Redirect "test_complete" None, session)
  else
    match nth_error questions current_index with
    | Some question =>
        (TakeTestPage question (current_index + 1) (List.length questions) current_index,
         session)
    | None => (ServerError IndexError, session)
    end.

(** [str.isalpha], [str.isdigit] and the code point of [str.upper] on one
    character of the Latin-1 range.  The upper case of U+00DF is two
    characters, of which [ord] raises [TypeError]: [None]. *)
Definition isalpha_char (c : ascii) : bool :=
  let n := PyStr.ord c in
  (PyStr.between 65 90 n || PyStr.between 97 122 n
   || (n =? 170) || (n =? 181) || (n =? 186)
   || PyStr.between 192 214 n || PyStr.between 216 246 n
   || PyStr.between 248 255 n)%nat.

Definition isdigit_char (c : ascii) : bool :=
  let n := PyStr.ord c in
  (PyStr.between 48 57 n || (n =? 178) || (n =? 179) || (n =? 185))%nat.

Fixpoint all_digits (s : string) : bool :=
  match s with
  | EmptyString => true
  | String c t => isdigit_char c && all_digits t
  end.

Definition isdigit (s : string) : bool :=
  negb (PyStr.is_empty s) && all_digits s.

Definition upper_ord (c : ascii) : option Z :=
  let n := PyStr.ord c in
  if PyStr.between 97 122 n then Some (Z.of_nat (n - 32))
  else if (n =? 181)%nat then Some 924%Z
  else if (n =? 223)%nat then None
  else if (PyStr.between 224 254 n && negb (n =? 247))%nat then Some (Z.of_nat (n - 32))
  else if (n =? 255)%nat then Some 376%Z
  else Some (Z.of_nat n).

(** [options[index]] for an index that may be out of range: the option
    when [0 <= index < len(options)], else the text kept as it is. *)
Definition option_or (options : list string) (index : Z) (kept : string) : string :=
  if ((0 <=? index) && (index <? Z.of_nat (List.length options)))%Z
  then match nth_error options (Z.to_nat index) with
       | Some o => o
       | None => kept
       end
  else kept.

(** The correct answer as the result shows it: a one-letter answer of a
    multiple-choice question is turned into the option of that letter. *)
Definition correct_answer_display (question : Question.t) : string :=
  let kept := Question.correct_answer question in
  if Question.type question =? "multiple_choice" then
    match kept with
    | String c EmptyString =>
        if isalpha_char c then
          match upper_ord c with
          | Some u => option_or (Question.options question) (u - 65)%Z kept
          | None => kept
          end
        else kept
    | _ => kept
    end
  else kept.

(** The answer as the result shows it: a number typed for a
    multiple-choice question is turned into the option it selects. *)
Definition user_answer_display (question : Question.t) (user_answer : string) : string :=
  if (Question.type question =? "multiple_choice") && isdigit user_answer then
    match PyStr.int user_answer with
    | Some n => option_or (Question.options question) (n - 1)%Z user_answer
    | None => user_answer
    end
  else user_answer.

(** [submit_answer]: [form_answer] is the form field if sent. *)
Definition submit_answer (form_answer : option string) (session : Session)
  : response * Session :=
  let loaded := questions session in
  let questions := Data.get (test_questions session) [] in
  let current_index := Data.get (current_question session) 0%nat in
  let results := Data.get (test_results session) [] in
  if (List.length questions <=? current_index)%nat
  then (Redirect "test_complete" None, session)
  else
    match nth_error questions current_index with
    | None => (ServerError IndexError, session)
    | Some question_data =>
        let user_answer := PyStr.strip (Data.get form_answer "") in
        let question := Question_init question_data in
        let (is_correct, points) := Question.check_answer question user_answer in
        let result :=
          Result.mk (Question.id question) (Question.question question)
                    (user_answer_display question user_answer)
                    (correct_answer_display question)
                    is_correct points (Question.points question)
                    (Question.explanation question) in
        (Redirect "take_test" None,
         mk_session loaded (test_questions session)
                    (Some (current_index + 1)%nat) (Some (results ++ [result])%list)
                    (test_start_time session) (randomized session))
    end.

(** [%d] of an integer, and a text padded with zeros on the left to a
    width, as [%02d] and [%06d] do for a number that is not negative. *)
Definition decimal (z : Z) : string :=
  if (z <? 0)%Z
  then "-" ++ NilEmpty.string_of_uint (Nat.to_uint (Z.to_nat (- z)))
  else NilEmpty.string_of_uint (Nat.to_uint (Z.to_nat z)).

Fixpoint zeros (n : nat) : string :=
  match n with
  | O => EmptyString
  | S n' => String "0" (zeros n')
  end.

Definition padded (width : nat) (text : string) : string :=
  zeros (width - String.length text) ++ text.

(** [str(d)] for a [timedelta] [d] of [us] microseconds: days, seconds
    and microseconds as [timedelta] keeps them, the last two never
    negative. *)
Definition timedelta_str (us : Z) : string :=
  let days := (us / 86400000000)%Z in
  let seconds := ((us mod 86400000000) / 1000000)%Z in
  let microseconds := ((us mod 86400000000) mod 1000000)%Z in
  let mm := (seconds / 60)%Z in
  let ss := (seconds mod 60)%Z in
  let hh := (mm / 60)%Z in
  let mm := (mm mod 60)%Z in
  let s := decimal hh ++ ":" ++ padded 2 (decimal mm) ++ ":" ++ padded 2 (decimal ss) in
  let s :=
    if (days =? 0)%Z then s
    else decimal days ++ " day" ++ (if (Z.abs days =? 1)%Z then "" else "s")
         ++ ", " ++ s in
  if (microseconds =? 0)%Z then s
  else s ++ "." ++ padded 6 (decimal microseconds).

(** [s.split('.')[0]] *)
Fixpoint before_dot (s : string) : string :=
  match s with
  | EmptyString => EmptyString
  | String c t => if (PyStr.ord c =? 46)%nat then EmptyString else String c (before_dot t)
  end.

(** [test_complete], reading the clock as [now]. *)
Definition test_complete (now : Z) (session : Session)
  : response * Session :=
  match Data.get (test_results session) [] with
  | [] => (Redirect "index" (Some "No test results found."), session)
  | results =>
      let total_points := TestSession.sum (map Result.points_earned results) in
      let max_points := TestSession.sum (map Result.max_points results) in
      let percentage :=
        if (max_points >? 0)%Z
        then (inject_Z total_points / inject_Z max_points * 100)%Q
        else 0%Q in
      let duration :=
        match test_start_time session with
        | Some start => before_dot (timedelta_str (now - start))
        | None => "Unknown"
        end in
      (TestCompletePage results total_points max_points percentage duration, session)
  end.

(** One request to the test pages. *)
Inductive request : Type :=
| GetStartTest (randomize_arg : option string) (sampled : list Data.t) (now : Z)
| GetTakeTest
| PostSubmitAnswer (form_answer : option string)
| GetTestComplete (now : Z).

Definition handle (r : request) (session : Session)
  : response * Session :=
  match r with
  | GetStartTest randomize_arg sampled now => start_test randomize_arg sampled now session
  | GetTakeTest => take_test session
  | PostSubmitAnswer form_answer => submit_answer form_answer session
  | GetTestComplete now => test_complete now session
  end.

(** The session after a sequence of requests. *)
Definition serve (requests : list request) (session : Session) : Session :=
  fold_left (fun s r => snd (handle r s)) requests session.

End WebApp.

(** The questions of one category, for comparison with the summary. *)
Definition in_category (c : string) (qs : list Question.t) : list Question.t :=
  filter (fun q => Question.category q =? c) qs.

(** The sums over the ['count'] and ['points'] of a [categories] dictionary. *)
Definition count_total (d : TestApp.categories) : Z :=
  TestSession.sum (map (fun kv => fst (snd kv)) d).

Definition points_total (d : TestApp.categories) : Z :=
  TestSession.sum (map (fun kv => snd (snd kv)) d).

(** What the loop of [show_question_summary] keeps true of the categories
    and the total after the questions [seen]. *)
Definition summarizes (seen : list Question.t) (acc : TestApp.categories * Z) : Prop :=
  snd acc = TestSession.sum (map Question.points seen)
  /\ NoDup (map fst (fst acc))
  /\ (forall c,
        TestApp.item c (fst acc)
        = if existsb (fun q => Question.category q =? c) seen
          then Some (Z.of_nat (List.length (in_category c seen)),
                     TestSession.sum (map Question.points (in_category c seen)))
          else None)
  /\ count_total (fst acc) = Z.of_nat (List.length seen)
  /\ points_total (fst acc) = snd acc.

(** The session after a sequence of calls, in order. *)
Definition run (calls : list TestSession.call) (s : TestSession.t) : TestSession.t :=
  fold_left (fun s c => TestSession.after c s) calls s.

(** The clock reading of the last [start_test] among the calls, if any. *)
Fixpoint last_start (calls : list TestSession.call) : option Z :=
  match calls with
  | [] => None
  | c :: rest =>
      match last_start rest with
      | Some t => Some t
      | None =>
          match c with
          | TestSession.StartTest t => Some t
          | _ => None
          end
      end
  end.

(** The results that were scored as correct. *)
Definition correct_results (rs : list Result.t) : list Result.t :=
  filter Result.is_correct rs.

(** An answer as the loop of [start_interactive_test] passes it on:
    stripped, and none of the words that cancel the test. *)
Definition typed_answer (a : string) : Prop :=
  PyStr.strip a = a
  /\ Question.str_in (PyStr.lower a) TestApp.quit_words = false.

(** A line that does not cancel the test. *)
Definition keeps_going (text : string) : bool :=
  negb (Question.str_in (PyStr.lower (PyStr.strip text)) TestApp.quit_words).

(** The calls that submit the given lines, stripped. *)
Definition submissions (texts : list string) : list TestSession.call :=
  map (fun text => TestSession.SubmitAnswer (PyStr.strip text)) texts.

(** The result the web page [submit_answer] stores for question [q] and
    the stripped answer [a]. *)
Definition web_recorded (q : Question.t) (a : string) : Result.t :=
  Result.mk (Question.id q) (Question.question q)
            (WebApp.user_answer_display q a) (WebApp.correct_answer_display q)
            (fst (Question.check_answer q a)) (snd (Question.check_answer q a))
            (Question.points q) (Question.explanation q).

(** What the test pages keep true of the session: there are as many
    results as the index says, and the index is not past the questions. *)
Definition in_step (s : WebApp.Session) : Prop :=
  List.length (Data.get (WebApp.test_results s) [])
  = Data.get (WebApp.current_question s) 0%nat
  /\ (Data.get (WebApp.current_question s) 0
      <= List.length (Data.get (WebApp.test_questions s) []))%nat.

(** A session without any key, and one in which [load_questions] has
    stored the questions of an uploaded file. *)
Definition new_session : WebApp.Session :=
  WebApp.mk_session None None None None None None.

Definition session_with (raw : list Data.t) : WebApp.Session :=
  WebApp.mk_session (Some (WebApp.loaded_questions raw)) None None None None None.

(** The requests that post the given form answers, in order. *)
Definition posts (texts : list string) : list WebApp.request :=
  map (fun text => WebApp.PostSubmitAnswer (Some text)) texts.

(** Two results with the same score for the same question. *)
Definition same_score (r r' : Result.t) : Prop :=
  Result.question_id r = Result.question_id r'
  /\ Result.question r = Result.question r'
  /\ Result.is_correct r = Result.is_correct r'
  /\ Result.points_earned r = Result.points_earned r'
  /\ Result.max_points r = Result.max_points r'
  /\ Result.explanation r = Result.explanation r'.

(** A multiple-choice question whose correct answer is given as the
    letter B. *)
Definition lettered : Question.t :=
  Question.mk "geo1" "What is the capital of Japan?" "multiple_choice"
              [ "Seoul"; "Tokyo"; "Bangkok" ] "B" "" 2 "Geography".

(** A short-answer question whose correct answer is a quit word. *)
Definition quit_question : Question.t :=
  Question.mk "vi1" "Which key leaves the pager?" "short_answer" [] "q" "" 1 "General".

(** The position of an ASCII letter in the alphabet, A and a being 0. *)
Definition letter_index (c : ascii) : option nat :=
  let n := PyStr.ord c in
  if PyStr.between 65 90 n then Some (n - 65)%nat
  else if PyStr.between 97 122 n then Some (n - 97)%nat
  else None.

(** ** [show_detailed_results] *)

(** What [show_detailed_results] prints for one result, before it is
    formatted: the number of the result, the text of the question at that
    position of the question list, and the result. *)
Definition detail : Type := (nat * string * Result.t)%type.

(** The loop over [enumerate(self.results, i)]: the details printed, and
    the [IndexError] of [self.questions[i-1]] if it is raised. *)
Fixpoint detailed_rows (i : nat) (results : list Result.t) (questions : list Question.t)
  : list detail * option exception :=
  match results with
  | [] => ([], None)
  | result :: rest =>
      match nth_error questions (i - 1) with
      | None => ([], Some IndexError)
      | Some question =>
          let (rows, raised) := detailed_rows (S i) rest questions in
          ((i, Question.question question, result) :: rows, raised)
      end
  end.

Definition show_detailed_results (self : TestSession.t)
  : list detail * option exception :=
  detailed_rows 1 (TestSession.results self) (TestSession.questions self).

(** * Properties *)

(** ** Strings *)

Section StringFacts.

Import PyStr.

Example strip_lower_samples :
  strip (lower "  Skin ") = "skin"
  /\ strip (lower " YES ") = "yes"
  /\ strip (String (chr 160) (String (chr 9) "a b")) = "a b"
  /\ lower (String (chr 201) "T") = String (chr 233) "t"
  /\ strip "   " = "".
Proof. repeat split. Qed.

Example int_samples :
  map int [ "2"; " +5 "; "-5"; "007"; "1_0"; "0_1" ]
  = [ Some 2; Some 5; Some (-5); Some 7; Some 10; Some 1 ]%Z
  /\ map int [ ""; " "; "+"; "--5"; "+ 5"; "_1"; "1_"; "1__0"; "1 2"; "0x10"; "1.0"; "two" ]
     = repeat None 12.
Proof. split; reflexivity. Qed.

Lemma isspace_lower_char (c : ascii) : isspace (lower_char c) = isspace c.
Proof. destruct c as [[] [] [] [] [] [] [] []]; reflexivity. Qed.

Lemma lower_is_empty (s : string) : is_empty (lower s) = is_empty s.
Proof. destruct s; reflexivity. Qed.

Lemma lower_lstrip (s : string) : lower (lstrip s) = lstrip (lower s).
Proof.
  induction s as [|c t IH]; simpl; [reflexivity|].
  rewrite isspace_lower_char. destruct (isspace c); [exact IH | reflexivity].
Qed.

Lemma lower_rstrip (s : string) : lower (rstrip s) = rstrip (lower s).
Proof.
  induction s as [|c t IH]; simpl; [reflexivity|].
  rewrite isspace_lower_char, <- IH, lower_is_empty.
  destruct (isspace c && is_empty (rstrip t)); reflexivity.
Qed.

(** Folding case and trimming commute. *)
Lemma lower_strip (s : string) : lower (strip s) = strip (lower s).
Proof. unfold strip. now rewrite lower_rstrip, lower_lstrip. Qed.

Lemma caseless_lower (a b : string) : Spec.caseless a b <-> lower a = lower b.
Proof.
  split.
  - induction 1 as [|c d s t Hc _ IH]; simpl; congruence.
  - revert b. induction a as [|c s IH]; intros [|d t] H; simpl in H; try discriminate.
    + constructor.
    + injection H as Hc Hs. constructor; auto.
Qed.

Lemma blank_lstrip (r : string) : Spec.blank r = true -> lstrip r = EmptyString.
Proof.
  induction r as [|c t IH]; simpl; [reflexivity|].
  intros H. apply andb_prop in H as [Hc Ht]. rewrite Hc. auto.
Qed.

Lemma blank_rstrip (r : string) : Spec.blank r = true -> rstrip r = EmptyString.
Proof.
  induction r as [|c t IH]; simpl; [reflexivity|].
  intros H. apply andb_prop in H as [Hc Ht]. now rewrite Hc, IH.
Qed.

Lemma lstrip_skips (l x : string) :
  Spec.blank l = true -> lstrip (l ++ x) = lstrip x.
Proof.
  induction l as [|c t IH]; simpl; [reflexivity|].
  intros H. apply andb_prop in H as [Hc Ht]. rewrite Hc. auto.
Qed.

Lemma lstrip_fixed (x : string) :
  Spec.starts_with_space x = false -> lstrip x = x.
Proof. destruct x as [|c t]; simpl; [reflexivity|]. now intros ->. Qed.

Lemma rstrip_skips (x r : string) :
  Spec.blank r = true -> rstrip (x ++ r) = rstrip x.
Proof.
  intros Hr. induction x as [|c t IH]; simpl.
  - now apply blank_rstrip.
  - now rewrite IH.
Qed.

Lemma rstrip_fixed (x : string) :
  Spec.ends_with_space x = false -> rstrip x = x.
Proof.
  induction x as [|c t IH]; [reflexivity|].
  destruct t as [|d u].
  - simpl. now intros ->.
  - intros H. change (Spec.ends_with_space (String d u) = false) in H.
    change (rstrip (String c (String d u)))
      with (if isspace c && is_empty (rstrip (String d u))
            then EmptyString else String c (rstrip (String d u))).
    rewrite (IH H). simpl. now rewrite andb_false_r.
Qed.

Lemma lstrip_split (s : string) :
  exists l, s = l ++ lstrip s /\ Spec.blank l = true.
Proof.
  induction s as [|c t [l [E B]]]; simpl.
  - now exists EmptyString.
  - destruct (isspace c) eqn:Hc.
    + exists (String c l). simpl. rewrite Hc, B. now rewrite <- E.
    + now exists EmptyString.
Qed.

Lemma rstrip_split (x : string) :
  exists r, x = rstrip x ++ r /\ Spec.blank r = true.
Proof.
  induction x as [|c t [r [E B]]]; simpl.
  - now exists EmptyString.
  - destruct (isspace c) eqn:Hc; simpl.
    + destruct (rstrip t) as [|d u] eqn:Ht; simpl.
      * exists (String c t). simpl. rewrite Hc. simpl in E. now rewrite E.
      * exists r. simpl in E. now rewrite <- E.
    + exists r. now rewrite <- E.
Qed.

Lemma lstrip_starts (s : string) : Spec.starts_with_space (lstrip s) = false.
Proof.
  induction s as [|c t IH]; simpl; [reflexivity|].
  destruct (isspace c) eqn:Hc; [exact IH | exact Hc].
Qed.

Lemma rstrip_starts (x : string) :
  Spec.starts_with_space x = false -> Spec.starts_with_space (rstrip x) = false.
Proof. destruct x as [|c t]; simpl; [reflexivity|]. intros H. rewrite H. simpl. exact H. Qed.

Lemma rstrip_ends (x : string) : Spec.ends_with_space (rstrip x) = false.
Proof.
  induction x as [|c t IH]; simpl; [reflexivity|].
  destruct (rstrip t) as [|d u] eqn:Ht.
  - destruct (isspace c) eqn:Hc; simpl; [reflexivity | exact Hc].
  - rewrite andb_false_r. exact IH.
Qed.

(** [strip] returns the string without its surrounding white space ... *)
Lemma strip_trimmed (s : string) : Spec.trimmed s (strip s).
Proof.
  destruct (lstrip_split s) as [l [El Bl]].
  destruct (rstrip_split (lstrip s)) as [r [Er Br]].
  exists l, r. unfold strip. repeat split; trivial.
  - now rewrite <- Er.
  - apply rstrip_starts, lstrip_starts.
  - apply rstrip_ends.
Qed.

(** ... and nothing else is. *)
Lemma trimmed_strip (s core : string) : Spec.trimmed s core -> core = strip s.
Proof.
  intros [l [r [E [Bl [Br [Hs He]]]]]]. subst s. unfold strip.
  rewrite lstrip_skips by exact Bl.
  destruct core as [|c t].
  - simpl. now rewrite blank_lstrip by exact Br.
  - simpl in Hs. simpl. rewrite Hs.
    change (String c (t ++ r)) with (String c t ++ r).
    rewrite rstrip_skips by exact Br. symmetry. now apply rstrip_fixed.
Qed.

(** The comparison [check_answer] makes on texts is the specification's. *)
Lemma same_text_clean (a b : string) :
  Spec.same_text a b <-> strip (lower a) = strip (lower b).
Proof.
  rewrite <- !lower_strip. split.
  - intros [ca [cb [Ha [Hb Hc]]]].
    apply trimmed_strip in Ha, Hb. subst. now apply caseless_lower.
  - intros H. exists (strip a), (strip b).
    split; [apply strip_trimmed|]. split; [apply strip_trimmed|].
    now apply caseless_lower.
Qed.

Lemma str_in_spec (x : string) (xs : list string) :
  Question.str_in x xs = true <-> In x xs.
Proof.
  unfold Question.str_in. rewrite existsb_exists. split.
  - intros [w [Hw E]]. apply String.eqb_eq in E. now subst.
  - intros H. exists x. split; [exact H | apply String.eqb_refl].
Qed.

(** The recognizer of [check_answer] is the specification's. *)
Lemma true_word_clean (s : string) :
  Spec.true_word s <-> Question.str_in (strip (lower s)) Question.true_words = true.
Proof.
  rewrite str_in_spec. split.
  - intros [w [Hw H]]. apply same_text_clean in H. rewrite H.
    simpl in Hw. decompose [or] Hw; subst; simpl; tauto.
  - intros H. exists (strip (lower s)). split; [exact H|].
    apply same_text_clean.
    simpl in H. decompose [or] H; try contradiction;
      match goal with E : _ = strip _ |- _ => rewrite <- E end; reflexivity.
Qed.

(** *** [int] on decimal numerals *)

Lemma digits_digit (c : ascii) (d acc : Z) (t : string) :
  digit_val c = Some d -> digits acc (String c t) = digits (10 * acc + d) t.
Proof. intros H. simpl. now rewrite H. Qed.

Ltac read_digit :=
  lazymatch goal with
  | |- digits ?acc (String ?c ?t) = _ =>
      let d := eval vm_compute in (digit_val c) in
      lazymatch d with
      | Some ?v => rewrite (@digits_digit c v acc t) by reflexivity
      end
  | |- int (String ?c ?t) = _ =>
      let d := eval vm_compute in (digit_val c) in
      lazymatch d with
      | Some ?v => change (int (String c t)) with (digits v t)
      end
  end.

Lemma digits_uint (u : Decimal.uint) (acc : nat) :
  digits (Z.of_nat acc) (NilEmpty.string_of_uint u)
  = Some (Z.of_nat (Nat.of_uint_acc u acc)).
Proof.
  revert acc.
  induction u as [|u IH|u IH|u IH|u IH|u IH|u IH|u IH|u IH|u IH|u IH];
    intros acc; [reflexivity|..];
    cbn [NilEmpty.string_of_uint Nat.of_uint_acc]; read_digit;
    rewrite <- IH; f_equal; rewrite Nat.tail_mul_spec; lia.
Qed.

Lemma to_uint_nonnil (k : nat) : Nat.to_uint k <> Decimal.Nil.
Proof.
  intros E. pose proof (Unsigned.of_to k) as H. rewrite E in H.
  simpl in H. subst k. discriminate E.
Qed.

(** [int] reads the decimal numeral of [k] as [k]. *)
Lemma int_numeral (k : nat) : int (Spec.numeral k) = Some (Z.of_nat k).
Proof.
  unfold Spec.numeral. rewrite <- (Unsigned.of_to k) at 2.
  pose proof (to_uint_nonnil k) as N.
  destruct (Nat.to_uint k) as [|u|u|u|u|u|u|u|u|u|u]; [contradiction|..];
    cbn [NilEmpty.string_of_uint]; read_digit;
    [ change 0%Z with (Z.of_nat 0) | change 1%Z with (Z.of_nat 1)
    | change 2%Z with (Z.of_nat 2) | change 3%Z with (Z.of_nat 3)
    | change 4%Z with (Z.of_nat 4) | change 5%Z with (Z.of_nat 5)
    | change 6%Z with (Z.of_nat 6) | change 7%Z with (Z.of_nat 7)
    | change 8%Z with (Z.of_nat 8) | change 9%Z with (Z.of_nat 9) ];
    rewrite digits_uint; reflexivity.
Qed.

End StringFacts.

(** ** Scoring *)

Section Scoring.

Import Question.
Local Open Scope Z_scope.

Lemma check_answer_binary (q : Question.t) (a : string) :
  snd (check_answer q a) = if fst (check_answer q a) then points q else 0.
Proof.
  unfold check_answer.
  destruct (type q =? "multiple_choice")%string.
  - destruct (PyStr.int a) as [n|]; [|reflexivity].
    cbv zeta.
    destruct ((0 <=? n - 1) && (n - 1 <? Z.of_nat (List.length (options q))));
      [|reflexivity].
    destruct (nth_error (options q) (Z.to_nat (n - 1))) as [selected|]; [|reflexivity].
    simpl. now destruct (selected =? correct_answer q)%string.
  - destruct (type q =? "true_false")%string.
    + cbv zeta. simpl. now destruct (Bool.eqb _ _).
    + destruct (str_in (type q) _); [|reflexivity].
      cbv zeta. simpl. now destruct (_ =? _)%string.
Qed.

Lemma check_answer_text_eq (q : Question.t) (a : string) :
  type q = "fill_blank"%string \/ type q = "short_answer"%string ->
  fst (check_answer q a)
  = (PyStr.strip (PyStr.lower a) =? PyStr.strip (PyStr.lower (correct_answer q)))%string.
Proof. unfold check_answer. intros [-> | ->]; reflexivity. Qed.

(** C8: for a [fill_blank] or [short_answer] question the answer is correct
    exactly when it equals the correct answer up to case and surrounding
    white space, the points earned are then the question's points and 0
    otherwise; the answer ["  Skin "] to the correct answer ["skin"] is
    correct. *)
Theorem check_answer_text (q : Question.t) (a : string) :
  type q = "fill_blank"%string \/ type q = "short_answer"%string ->
  (fst (check_answer q a) = true <-> Spec.same_text a (correct_answer q))
  /\ snd (check_answer q a) = (if fst (check_answer q a) then points q else 0)
  /\ (correct_answer q = "skin"%string -> check_answer q "  Skin " = (true, points q)).
Proof.
  intros Ht. split; [|split].
  - rewrite check_answer_text_eq by exact Ht. rewrite String.eqb_eq. symmetry. apply same_text_clean.
  - apply check_answer_binary.
  - intros Hc. rewrite (surjective_pairing (check_answer q "  Skin ")).
    rewrite check_answer_binary, check_answer_text_eq by exact Ht. rewrite Hc. reflexivity.
Qed.

Lemma check_answer_text_witness :
  (fst (check_answer Demo.skin "SKIN  ") = true
   <-> Spec.same_text "SKIN  " (correct_answer Demo.skin))
  /\ snd (check_answer Demo.skin "SKIN  ")
     = (if fst (check_answer Demo.skin "SKIN  ") then points Demo.skin else 0)
  /\ (correct_answer Demo.skin = "skin"%string
      -> check_answer Demo.skin "  Skin " = (true, points Demo.skin)).
Proof. apply (@check_answer_text Demo.skin "SKIN  "). left. reflexivity. Defined.

(** C9: a question whose type is none of the four known ones scores every
    answer as incorrect with 0 points. *)
Theorem check_answer_unknown_type (q : Question.t) (a : string) :
  type q <> "multiple_choice"%string ->
  type q <> "true_false"%string ->
  type q <> "fill_blank"%string ->
  type q <> "short_answer"%string ->
  check_answer q a = (false, 0).
Proof.
  intros H1 H2 H3 H4. unfold check_answer, str_in. simpl.
  apply String.eqb_neq in H1, H2, H3, H4.
  now rewrite H1, H2, H3, H4.
Qed.

Lemma check_answer_unknown_type_witness :
  check_answer Demo.essay "anything" = (false, 0).
Proof. apply check_answer_unknown_type; discriminate. Defined.

(** C7: for a [true_false] question both the answer and the correct answer
    are read by the recognizer of the five words (trimmed, ignoring case),
    the answer is correct exactly when the two booleans agree, and the
    points earned are then the question's points and 0 otherwise. *)
Theorem check_answer_true_false (q : Question.t) (a : string) :
  type q = "true_false"%string ->
  exists answer_bool correct_bool : bool,
    (answer_bool = true <-> Spec.true_word a)
    /\ (correct_bool = true <-> Spec.true_word (correct_answer q))
    /\ check_answer q a
       = (Bool.eqb answer_bool correct_bool,
          if Bool.eqb answer_bool correct_bool then points q else 0)
    /\ (Spec.true_word (correct_answer q) ->
        Forall (fun w => check_answer q w = (true, points q))
               [ "true"; "True"; "T"; "1"; "yes"; "Y" ]%string).
Proof.
  intros Ht.
  exists (str_in (PyStr.strip (PyStr.lower a)) true_words),
         (str_in (PyStr.strip (PyStr.lower (correct_answer q))) true_words).
  split; [symmetry; apply true_word_clean|].
  split; [symmetry; apply true_word_clean|].
  split; [unfold check_answer; now rewrite Ht|].
  intros Hc. apply true_word_clean in Hc.
  repeat apply Forall_cons; try apply Forall_nil;
    unfold check_answer; rewrite Ht, Hc; reflexivity.
Qed.

Lemma check_answer_true_false_witness :
  exists answer_bool correct_bool : bool,
    (answer_bool = true <-> Spec.true_word " YES ")
    /\ (correct_bool = true <-> Spec.true_word (correct_answer Demo.demo2))
    /\ check_answer Demo.demo2 " YES "
       = (Bool.eqb answer_bool correct_bool,
          if Bool.eqb answer_bool correct_bool then points Demo.demo2 else 0)
    /\ (Spec.true_word (correct_answer Demo.demo2) ->
        Forall (fun w => check_answer Demo.demo2 w = (true, points Demo.demo2))
               [ "true"; "True"; "T"; "1"; "yes"; "Y" ]%string).
Proof. apply (@check_answer_true_false Demo.demo2 " YES "). reflexivity. Defined.

Lemma check_answer_choice_eq (q : Question.t) (a : string) (n : Z) (selected : string) :
  type q = "multiple_choice"%string ->
  PyStr.int a = Some n ->
  nth_error (options q) (Z.to_nat (n - 1)) = Some selected ->
  1 <= n ->
  check_answer q a
  = ((selected =? correct_answer q)%string,
     if (selected =? correct_answer q)%string then points q else 0).
Proof.
  intros Ht Hi Hs Hn. unfold check_answer. rewrite Ht, Hi. cbv zeta.
  assert (Hlen : (Z.to_nat (n - 1) < List.length (options q))%nat)
    by (apply nth_error_Some; congruence).
  replace ((0 <=? n - 1) && (n - 1 <? Z.of_nat (List.length (options q)))) with true
    by (symmetry; apply andb_true_intro; split; [apply Z.leb_le | apply Z.ltb_lt]; lia).
  simpl. now rewrite Hs.
Qed.

(** C6: for a [multiple_choice] question the answer is read by [int] as a
    1-based index into the options.  An answer that is not a number, or a
    number outside 1..len(options), scores (False, 0).  A number inside
    the range selects options[n-1], and the score is (True, points) exactly
    when the selected option is the correct answer, compared as strings,
    and (False, 0) for any other option.  In particular the decimal numeral
    of a position scores by the option at that position. *)
Theorem check_answer_multiple_choice (q : Question.t) (a : string) :
  type q = "multiple_choice"%string ->
  (PyStr.int a = None -> check_answer q a = (false, 0))
  /\ (forall n, PyStr.int a = Some n ->
        n < 1 \/ Z.of_nat (List.length (options q)) < n ->
        check_answer q a = (false, 0))
  /\ (forall n, PyStr.int a = Some n ->
        1 <= n <= Z.of_nat (List.length (options q)) ->
        exists selected,
          nth_error (options q) (Z.to_nat (n - 1)) = Some selected
          /\ (selected = correct_answer q -> check_answer q a = (true, points q))
          /\ (selected <> correct_answer q -> check_answer q a = (false, 0))
          /\ (fst (check_answer q a) = true <-> selected = correct_answer q))
  /\ (forall i selected, nth_error (options q) i = Some selected ->
        check_answer q (Spec.numeral (S i))
        = ((selected =? correct_answer q)%string,
           if (selected =? correct_answer q)%string then points q else 0)).
Proof.
  intros Ht. split; [|split; [|split]].
  - intros Hi. unfold check_answer. now rewrite Ht, Hi.
  - intros n Hi Hn. unfold check_answer. rewrite Ht, Hi. cbv zeta.
    replace ((0 <=? n - 1) && (n - 1 <? Z.of_nat (List.length (options q)))) with false;
      [reflexivity|].
    symmetry. apply andb_false_iff.
    destruct Hn; [left; apply Z.leb_gt | right; apply Z.ltb_ge]; lia.
  - intros n Hi Hn.
    destruct (nth_error (options q) (Z.to_nat (n - 1))) as [selected|] eqn:Hs.
    + exists selected. split; [reflexivity|].
      rewrite (@check_answer_choice_eq q a n selected Ht Hi Hs) by lia.
      destruct (String.eqb_spec selected (correct_answer q)) as [E|E]; simpl.
      * repeat split; trivial. contradiction.
      * repeat split; try contradiction; try discriminate; trivial.
    + apply nth_error_None in Hs. lia.
  - intros i selected Hs.
    apply (@check_answer_choice_eq q _ (Z.of_nat (S i)) selected Ht).
    + apply int_numeral.
    + replace (Z.to_nat (Z.of_nat (S i) - 1)) with i by lia. exact Hs.
    + lia.
Qed.

Lemma check_answer_multiple_choice_witness :
  check_answer Demo.demo1 "2" = (true, 1) /\ check_answer Demo.demo1 "1" = (false, 0).
Proof.
  destruct (@check_answer_multiple_choice Demo.demo1 "2" eq_refl) as [_ [_ [H _]]].
  destruct (@check_answer_multiple_choice Demo.demo1 "1" eq_refl) as [_ [_ [H' _]]].
  destruct (H 2 eq_refl ltac:(simpl; lia)) as [s2 [E2 [Y2 _]]].
  destruct (H' 1 eq_refl ltac:(simpl; lia)) as [s1 [E1 [_ [N1 _]]]].
  injection E2 as <-. injection E1 as <-.
  split; [apply Y2; reflexivity | apply N1; discriminate].
Defined.

End Scoring.

(** ** Sessions *)

Section Session.

Import TestSession.
Local Open Scope Z_scope.

Lemma sum_from (l : list Z) (a : Z) : fold_left Z.add l a = a + sum l.
Proof.
  unfold sum. revert a. induction l as [|x l IH]; intros a; simpl; [lia|].
  rewrite (IH (a + x)), (IH x). lia.
Qed.

Lemma sum_cons (x : Z) (l : list Z) : sum (x :: l) = x + sum l.
Proof. unfold sum at 1. simpl. apply sum_from. Qed.

Lemma sum_app (l l' : list Z) : sum (l ++ l')%list = sum l + sum l'.
Proof.
  induction l as [|x l IH]; [reflexivity|].
  simpl. rewrite !sum_cons, IH. lia.
Qed.

Lemma sum_bounds (lo hi : list Z) :
  Forall2 (fun x y => 0 <= x <= y) lo hi -> 0 <= sum lo <= sum hi.
Proof.
  induction 1 as [|x y lo hi Hxy _ IH]; [unfold sum; simpl; lia|].
  rewrite !sum_cons. lia.
Qed.

Lemma firstn_snoc {A} (l : list A) (n : nat) (x : A) :
  nth_error l n = Some x -> firstn (n + 1) l = (firstn n l ++ [x])%list.
Proof.
  revert n. induction l as [|y l IH]; intros [|n] H; simpl in *; try discriminate.
  - now injection H as ->.
  - now rewrite (IH n H).
Qed.

(** *** The methods, case by case *)

Lemma start_test_eq (now : Z) (s : t) :
  start_test now s
  = (inr tt, mk (questions s) (results s) (Some now) (end_time s)
                (current_question_index s)).
Proof. reflexivity. Qed.

Lemma submit_answer_ok (a : string) (s : t) (q : Question.t) :
  nth_error (questions s) (current_question_index s) = Some q ->
  submit_answer a s
  = (inr (current_question_index s + 1 <? List.length (questions s))%nat,
     mk (questions s) (results s ++ [recorded q a]) (start_time s) (end_time s)
        (current_question_index s + 1)).
Proof.
  intros H. unfold submit_answer, get_current_question, bind, get. rewrite H.
  unfold ret, recorded. cbv beta iota.
  destruct (Question.check_answer q a) as [is_correct pts]. reflexivity.
Qed.

Lemma submit_answer_past (a : string) (s : t) :
  nth_error (questions s) (current_question_index s) = None ->
  submit_answer a s = (inl IndexError, s).
Proof.
  intros H. unfold submit_answer, get_current_question, bind, get. now rewrite H.
Qed.

Lemma finish_test_ok (now st : Z) (s : t) :
  start_time s = Some st ->
  finish_test now s
  = (inr (mk_summary
            (sum (map Result.points_earned (results s)))
            (sum (map Result.max_points (results s)))
            (if sum (map Result.max_points (results s)) >? 0
             then (inject_Z (sum (map Result.points_earned (results s)))
                   / inject_Z (sum (map Result.max_points (results s))) * 100)%Q
             else 0%Q)
            (now - st)),
     mk (questions s) (results s) (start_time s) (Some now)
        (current_question_index s)).
Proof.
  intros H. unfold finish_test, elapsed, set_end_time, bind, get, put. simpl.
  now rewrite H.
Qed.

Lemma finish_test_unstarted (now : Z) (s : t) :
  start_time s = None ->
  finish_test now s
  = (inl TypeError,
     mk (questions s) (results s) None (Some now) (current_question_index s)).
Proof.
  intros H. unfold finish_test, elapsed, set_end_time, bind, get, put. simpl.
  now rewrite H.
Qed.

(** *** The invariant *)

Lemma consistent_init (qs : list Question.t) : consistent qs (init qs).
Proof. repeat split; simpl; auto using Nat.le_0_l. Qed.

Lemma consistent_after (qs : list Question.t) (c : call) (s : t) :
  consistent qs s -> consistent qs (after c s).
Proof.
  intros (Hq & Hi & Hle & Hr). destruct c as [now | answer | now]; unfold after.
  - rewrite start_test_eq. repeat split; assumption.
  - destruct (nth_error (questions s) (current_question_index s)) as [q|] eqn:Hn.
    + rewrite (@submit_answer_ok answer s q Hn).
      assert (Hlt : (current_question_index s < List.length qs)%nat)
        by (rewrite <- Hq; apply nth_error_Some; congruence).
      unfold consistent. simpl. repeat split; trivial.
      * rewrite length_app. simpl. lia.
      * lia.
      * rewrite Hq in Hn. rewrite (firstn_snoc _ _ Hn).
        apply Forall2_app; [exact Hr|]. repeat constructor. now exists answer.
    + rewrite (@submit_answer_past answer s Hn). repeat split; assumption.
  - destruct (start_time s) as [st|] eqn:Hst.
    + rewrite (@finish_test_ok now st s Hst). repeat split; assumption.
    + rewrite (@finish_test_unstarted now s Hst). repeat split; assumption.
Qed.

Lemma reachable_consistent (qs : list Question.t) (s : t) :
  reachable qs s -> consistent qs s.
Proof.
  induction 1 as [|s c _ IH]; [apply consistent_init | now apply consistent_after].
Qed.

Lemma recorded_max_points (l : list Question.t) (l' : list Result.t) :
  Forall2 (fun q r => exists a, r = recorded q a) l l' ->
  map Result.max_points l' = map Question.points l.
Proof.
  induction 1 as [|q r l l' [a E] _ IH]; simpl; [reflexivity|].
  rewrite IH, E. reflexivity.
Qed.

Lemma recorded_binary (l : list Question.t) (l' : list Result.t) :
  Forall2 (fun q r => exists a, r = recorded q a) l l' ->
  Forall (fun r => Result.points_earned r = 0
                   \/ Result.points_earned r = Result.max_points r) l'.
Proof.
  induction 1 as [|q r l l' [a E] _ IH]; constructor; [|exact IH].
  rewrite E. simpl. rewrite check_answer_binary.
  destruct (fst (Question.check_answer q a)); auto.
Qed.

Lemma consistent_max_points (qs : list Question.t) (s : t) :
  consistent qs s ->
  map Result.max_points (results s)
  = map Question.points (firstn (List.length (results s)) qs).
Proof.
  intros (_ & Hi & _ & Hr). rewrite <- Hi. now apply recorded_max_points.
Qed.

Lemma consistent_binary (qs : list Question.t) (s : t) :
  consistent qs s ->
  Forall (fun r => Result.points_earned r = 0
                   \/ Result.points_earned r = Result.max_points r) (results s).
Proof. intros (_ & _ & _ & Hr). now apply recorded_binary in Hr. Qed.

Lemma Forall2_nth_right {A B} (P : A -> B -> Prop) (l : list A) (l' : list B) :
  Forall2 P l l' ->
  forall i y, nth_error l' i = Some y -> exists x, nth_error l i = Some x /\ P x y.
Proof.
  induction 1 as [|x y l l' Hxy _ IH]; intros [|i] z Hz; simpl in *; try discriminate.
  - injection Hz as <-. eauto.
  - eauto.
Qed.

Lemma nth_error_firstn_some {A} (l : list A) (n i : nat) (x : A) :
  nth_error (firstn n l) i = Some x -> nth_error l i = Some x.
Proof.
  revert n i. induction l as [|y l IH]; intros [|n] [|i] H; simpl in *;
    try discriminate; eauto.
Qed.

Lemma Forall_firstn_keeps {A} (P : A -> Prop) (l : list A) (n : nat) :
  Forall P l -> Forall P (firstn n l).
Proof.
  intros H. revert n. induction H as [|x l Hx _ IH]; intros [|n]; simpl; auto.
Qed.

Lemma recorded_sums (l : list Question.t) (l' : list Result.t) :
  Forall2 (fun q r => exists a, r = recorded q a) l l' ->
  Forall (fun q => 0 <= Question.points q) l ->
  0 <= sum (map Result.points_earned l') <= sum (map Result.max_points l').
Proof.
  intros H Hp. apply sum_bounds.
  induction H as [|q r l l' [a E] _ IH]; simpl; constructor.
  - apply Forall_inv in Hp. rewrite E. simpl. rewrite check_answer_binary.
    destruct (fst (Question.check_answer q a)); lia.
  - apply IH. now apply Forall_inv_tail in Hp.
Qed.

(** The exact quotient behind the percentage. *)
Lemma percentage_bounds (t m : Z) :
  0 <= t <= m -> 0 < m ->
  (0 <= inject_Z t / inject_Z m * 100 <= 100)%Q.
Proof.
  intros Ht Hm. destruct m as [|p|p]; try lia.
  unfold Qle, Qdiv, Qmult, Qinv, inject_Z. simpl. split; nia.
Qed.

(** *** Finishing *)

(** C1 (as amended): on every session a caller can see, [finish_test] of a
    started session returns a summary whose total points are the sum of the
    points earned over the recorded results and whose max points are the
    sum of the point values of the questions answered so far, the first
    len(results) questions of the list the session was created with.  The
    point values of the questions not yet answered are not counted, so the
    max points are the sum over the whole list once every question has been
    answered. *)
Theorem finish_test_points (qs : list Question.t) (s : t) (now st : Z) :
  reachable qs s ->
  start_time s = Some st ->
  exists sm s',
    finish_test now s = (inr sm, s')
    /\ total_points sm = sum (map Result.points_earned (results s))
    /\ max_points sm
       = sum (map Question.points (firstn (List.length (results s)) qs))
    /\ sum (map Question.points qs)
       = max_points sm
         + sum (map Question.points (skipn (List.length (results s)) qs))
    /\ (List.length (results s) = List.length qs ->
        max_points sm = sum (map Question.points qs)).
Proof.
  intros Hr Hst. apply reachable_consistent in Hr.
  rewrite (@finish_test_ok now st s Hst). do 2 eexists. split; [reflexivity|].
  simpl. rewrite (consistent_max_points Hr).
  assert (Hall : sum (map Question.points qs)
                 = sum (map Question.points (firstn (List.length (results s)) qs))
                   + sum (map Question.points (skipn (List.length (results s)) qs))).
  { rewrite <- sum_app, <- map_app, firstn_skipn. reflexivity. }
  repeat split; trivial.
  intros Hlen. rewrite Hlen, firstn_all. reflexivity.
Qed.

Lemma finish_test_points_witness :
  exists sm s',
    finish_test 7 Demo.answered = (inr sm, s')
    /\ total_points sm = sum (map Result.points_earned (results Demo.answered))
    /\ max_points sm
       = sum (map Question.points
                  (firstn (List.length (results Demo.answered)) Demo.questions))
    /\ sum (map Question.points Demo.questions)
       = max_points sm
         + sum (map Question.points
                    (skipn (List.length (results Demo.answered)) Demo.questions))
    /\ (List.length (results Demo.answered) = List.length Demo.questions ->
        max_points sm = sum (map Question.points Demo.questions)).
Proof.
  apply (@finish_test_points Demo.questions Demo.answered 7 0).
  - unfold Demo.answered, Demo.started. repeat apply reach_call. apply reach_init.
  - reflexivity.
Defined.

(** C1 as stated fails: after one of the two demo questions, both worth one
    point, the summary's max points are 1 and not 2. *)
Lemma finish_test_points_counterexample :
  reachable Demo.questions Demo.half
  /\ exists sm s',
       finish_test 7 Demo.half = (inr sm, s')
       /\ max_points sm = 1
       /\ sum (map Question.points Demo.questions) = 2.
Proof.
  split.
  - unfold Demo.half, Demo.started. repeat apply reach_call. apply reach_init.
  - rewrite (@finish_test_ok 7 0 Demo.half eq_refl).
    do 2 eexists. split; [reflexivity|]. split; reflexivity.
Qed.

(** C2 (as amended): [finish_test] can be called again.  It never fails
    because the session is completed: its only failure is the [TypeError]
    of a session that was never started.  On a started session a first and
    a second call both return a summary; the second call replaces the
    recorded end time by its own clock reading and measures the duration up
    to it; total points, max points and percentage are the same in both
    summaries, and the result list read through the first summary is
    unchanged. *)
Theorem finish_test_again (s : t) (now1 now2 : Z) :
  (forall e, fst (finish_test now1 s) = inl e ->
             e = TypeError /\ start_time s = None)
  /\ (forall st, start_time s = Some st ->
      exists sm1 s1 sm2 s2,
        finish_test now1 s = (inr sm1, s1)
        /\ finish_test now2 s1 = (inr sm2, s2)
        /\ end_time s1 = Some now1 /\ end_time s2 = Some now2
        /\ duration sm1 = now1 - st /\ duration sm2 = now2 - st
        /\ total_points sm2 = total_points sm1
        /\ max_points sm2 = max_points sm1
        /\ percentage sm2 = percentage sm1
        /\ summary_results sm1 s2 = summary_results sm1 s1).
Proof.
  split.
  - intros e He. destruct (start_time s) as [st|] eqn:Hst.
    + rewrite (@finish_test_ok now1 st s Hst) in He. discriminate He.
    + rewrite (@finish_test_unstarted now1 s Hst) in He. simpl in He.
      split; congruence.
  - intros st Hst. rewrite (@finish_test_ok now1 st s Hst).
    do 4 eexists. split; [reflexivity|].
    split; [apply (@finish_test_ok now2 st); exact Hst|].
    simpl. repeat split.
Qed.

Lemma finish_test_again_witness :
  exists sm1 s1 sm2 s2,
    finish_test 10 Demo.answered = (inr sm1, s1)
    /\ finish_test 20 s1 = (inr sm2, s2)
    /\ end_time s1 = Some 10 /\ end_time s2 = Some 20
    /\ duration sm1 = 10 - 0 /\ duration sm2 = 20 - 0
    /\ total_points sm2 = total_points sm1
    /\ max_points sm2 = max_points sm1
    /\ percentage sm2 = percentage sm1
    /\ summary_results sm1 s2 = summary_results sm1 s1.
Proof.
  apply (proj2 (finish_test_again Demo.answered 10 20) 0). reflexivity.
Defined.

(** C2 as stated fails: the second [finish_test] on the completed demo
    session returns a summary, no exception, and moves the end time from 10
    to 20. *)
Lemma finish_test_again_counterexample :
  exists sm1 s1 sm2 s2,
    finish_test 10 Demo.answered = (inr sm1, s1)
    /\ finish_test 20 s1 = (inr sm2, s2)
    /\ end_time s1 = Some 10
    /\ end_time s2 = Some 20
    /\ end_time s2 <> end_time s1
    /\ ~ (exists e, fst (finish_test 20 s1) = inl e
                    /\ exception_name e = Spec.AlreadyFinished).
Proof.
  rewrite (@finish_test_ok 10 0 Demo.answered eq_refl).
  do 4 eexists. split; [reflexivity|].
  split; [apply (@finish_test_ok 20 0); reflexivity|].
  do 2 (split; [reflexivity|]). split; [discriminate|].
  intros [e [He _]]. rewrite (@finish_test_ok 20 0) in He by reflexivity.
  discriminate He.
Qed.

(** C4: on a session whose questions have no negative points, the
    percentage in the summary of [finish_test] is 0 when the max points
    are 0, and total points / max points * 100 otherwise.  The percentage
    is the exact value that the float division and multiplication of the
    code round. *)
Theorem finish_test_percentage_cases (qs : list Question.t) (s : t) (now st : Z) :
  Forall (fun q => 0 <= Question.points q) qs ->
  reachable qs s ->
  start_time s = Some st ->
  exists sm s',
    finish_test now s = (inr sm, s')
    /\ (max_points sm = 0 -> percentage sm = 0%Q)
    /\ (max_points sm <> 0 ->
        percentage sm
        = (inject_Z (total_points sm) / inject_Z (max_points sm) * 100)%Q).
Proof.
  intros Hp Hr Hst. apply reachable_consistent in Hr.
  destruct Hr as (_ & _ & _ & Hrec).
  pose proof (recorded_sums Hrec (Forall_firstn_keeps _ Hp)) as Hs.
  rewrite (@finish_test_ok now st s Hst).
  do 2 eexists. split; [reflexivity|]. simpl.
  destruct (Z.gtb_spec (sum (map Result.max_points (results s))) 0) as [Hpos|Hneg].
  - split; [lia | reflexivity].
  - split; [reflexivity | lia].
Qed.

Lemma finish_test_percentage_cases_witness :
  exists sm s',
    finish_test 7 Demo.failed = (inr sm, s')
    /\ (max_points sm = 0 -> percentage sm = 0%Q)
    /\ (max_points sm <> 0 ->
        percentage sm
        = (inject_Z (total_points sm) / inject_Z (max_points sm) * 100)%Q).
Proof.
  apply (@finish_test_percentage_cases Demo.questions Demo.failed 7 0).
  - repeat constructor; simpl; lia.
  - unfold Demo.failed, Demo.started. repeat apply reach_call. apply reach_init.
  - reflexivity.
Defined.

(** The ['results'] entry of a summary is the live list of the session: an
    answer submitted after [finish_test] shows up in the summary returned
    before. *)
Remark summary_results_alias :
  exists sm s1 b s2,
    finish_test 7 Demo.half = (inr sm, s1)
    /\ submit_answer "True" s1 = (inr b, s2)
    /\ List.length (summary_results sm s1) = 1%nat
    /\ List.length (summary_results sm s2) = 2%nat.
Proof.
  rewrite (@finish_test_ok 7 0 Demo.half eq_refl).
  do 4 eexists. split; [reflexivity|].
  split; [apply (@submit_answer_ok "True" _ Demo.demo2); reflexivity|].
  split; reflexivity.
Qed.

(** *** Submitting *)

(** C3 (as amended): [submit_answer] on a session whose index is not below
    the number of questions raises the [IndexError] of the list lookup in
    [get_current_question]; nothing is scored, and the session, its result
    list and index included, is unchanged. *)
Theorem submit_answer_past_end (s : t) (a : string) :
  (List.length (questions s) <= current_question_index s)%nat ->
  submit_answer a s = (inl IndexError, s)
  /\ exception_name IndexError = "IndexError"%string.
Proof.
  intros H. split; [|reflexivity].
  apply submit_answer_past. now apply nth_error_None.
Qed.

Lemma submit_answer_past_end_witness :
  submit_answer "2" Demo.answered = (inl IndexError, Demo.answered)
  /\ exception_name IndexError = "IndexError"%string.
Proof. apply submit_answer_past_end. simpl. lia. Defined.

(** C3 as stated fails: past the end of the demo session [submit_answer]
    raises an exception whose name is not OutOfSequence. *)
Lemma submit_answer_past_end_counterexample :
  (List.length (questions Demo.answered) <= current_question_index Demo.answered)%nat
  /\ exists e,
       fst (submit_answer "2" Demo.answered) = inl e
       /\ exception_name e <> Spec.OutOfSequence.
Proof.
  split; [simpl; lia|]. exists IndexError. split; [reflexivity | discriminate].
Qed.

Lemma submit_answer_step (s : t) (a : string) :
  (current_question_index s < List.length (questions s))%nat ->
  exists r b s',
    submit_answer a s = (inr b, s')
    /\ results s' = (results s ++ [r])%list
    /\ current_question_index s' = (current_question_index s + 1)%nat
    /\ questions s' = questions s
    /\ (b = true <->
        (current_question_index s' < List.length (questions s'))%nat).
Proof.
  intros H.
  destruct (nth_error (questions s) (current_question_index s)) as [q|] eqn:Hn;
    [|apply nth_error_None in Hn; lia].
  rewrite (@submit_answer_ok a s q Hn).
  do 3 eexists. split; [reflexivity|]. simpl.
  do 3 (split; [reflexivity|]). apply Nat.ltb_lt.
Qed.

Lemma submit_all_ok (answers : list string) (s : t) :
  (current_question_index s + List.length answers <= List.length (questions s))%nat ->
  exists bs s',
    submit_all answers s = (inr bs, s')
    /\ List.length bs = List.length answers
    /\ List.length (results s') = (List.length (results s) + List.length answers)%nat
    /\ current_question_index s'
       = (current_question_index s + List.length answers)%nat
    /\ questions s' = questions s.
Proof.
  revert s. induction answers as [|a rest IH]; intros s H; simpl in *.
  - exists [], s. repeat split; lia.
  - destruct (@submit_answer_step s a) as (r & b & s1 & E & Hr & Hi & Hq & _); [lia|].
    destruct (IH s1) as (bs & s2 & E2 & Hb & Hr2 & Hi2 & Hq2); [rewrite Hi, Hq; lia|].
    exists (b :: bs), s2. unfold bind. rewrite E, E2. simpl.
    rewrite Hr, length_app in Hr2. simpl in Hr2.
    repeat split; try lia; congruence.
Qed.

(** C5: on a session over Q questions, N <= Q calls of [submit_answer] all
    return and leave N results and the index N; each call on a session with
    a question left appends one result, moves the index up by one and
    returns True exactly when the new index is below the number of
    questions. *)
Theorem submit_answer_progress (qs : list Question.t) (answers : list string) :
  (List.length answers <= List.length qs)%nat ->
  (exists bs s',
     submit_all answers (init qs) = (inr bs, s')
     /\ List.length (results s') = List.length answers
     /\ current_question_index s' = List.length answers)
  /\ (forall s a,
        (current_question_index s < List.length (questions s))%nat ->
        exists r b s',
          submit_answer a s = (inr b, s')
          /\ results s' = (results s ++ [r])%list
          /\ current_question_index s' = (current_question_index s + 1)%nat
          /\ questions s' = questions s
          /\ (b = true <->
              (current_question_index s' < List.length (questions s'))%nat)).
Proof.
  intros H. split; [|apply submit_answer_step].
  destruct (@submit_all_ok answers (init qs)) as (bs & s' & E & _ & Hr & Hi & _);
    [simpl; lia|].
  exists bs, s'. simpl in Hr, Hi. auto.
Qed.

Lemma submit_answer_progress_witness :
  exists bs s',
    submit_all [ "2"; "maybe" ]%string (init Demo.questions) = (inr bs, s')
    /\ List.length (results s') = 2%nat
    /\ current_question_index s' = 2%nat.
Proof.
  apply (@submit_answer_progress Demo.questions [ "2"; "maybe" ]%string).
  simpl. lia.
Defined.

(** *** Bounds *)

(** C10: when no question has negative points, on every session a caller
    can see each recorded result earned 0 or the points of its question
    (recorded as its max points), and the summary of [finish_test]
    satisfies 0 <= total points <= max points and 0 <= percentage <= 100. *)
Theorem finish_test_bounds (qs : list Question.t) (s : t) :
  Forall (fun q => 0 <= Question.points q) qs ->
  reachable qs s ->
  (forall i r, nth_error (results s) i = Some r ->
     exists q, nth_error qs i = Some q
       /\ Result.max_points r = Question.points q
       /\ (Result.points_earned r = 0
           \/ Result.points_earned r = Result.max_points r))
  /\ (forall now st, start_time s = Some st ->
      exists sm s',
        finish_test now s = (inr sm, s')
        /\ 0 <= total_points sm <= max_points sm
        /\ (0 <= percentage sm <= 100)%Q).
Proof.
  intros Hp Hr. apply reachable_consistent in Hr.
  pose proof Hr as (_ & _ & _ & Hrec). split.
  - intros i r Hi.
    destruct (Forall2_nth_right Hrec _ Hi) as (q & Hq & a & E).
    exists q. split; [now apply nth_error_firstn_some in Hq|].
    rewrite E. simpl. split; [reflexivity|].
    rewrite check_answer_binary.
    destruct (fst (Question.check_answer q a)); auto.
  - intros now st Hst. rewrite (@finish_test_ok now st s Hst).
    do 2 eexists. split; [reflexivity|]. simpl.
    pose proof (recorded_sums Hrec (Forall_firstn_keeps _ Hp)) as Hs.
    split; [exact Hs|].
    destruct (Z.gtb_spec (sum (map Result.max_points (results s))) 0) as [Hpos|_].
    + now apply percentage_bounds.
    + split; discriminate.
Qed.

Lemma finish_test_bounds_witness :
  (forall i r, nth_error (results Demo.half) i = Some r ->
     exists q, nth_error Demo.questions i = Some q
       /\ Result.max_points r = Question.points q
       /\ (Result.points_earned r = 0
           \/ Result.points_earned r = Result.max_points r))
  /\ (forall now st, start_time Demo.half = Some st ->
      exists sm s',
        finish_test now Demo.half = (inr sm, s')
        /\ 0 <= total_points sm <= max_points sm
        /\ (0 <= percentage sm <= 100)%Q).
Proof.
  apply (@finish_test_bounds Demo.questions Demo.half).
  - repeat constructor; simpl; lia.
  - unfold Demo.half, Demo.started. repeat apply reach_call. apply reach_init.
Defined.

End Session.

(** ** The upload filter *)

Section Uploads.

Import WebApp.

Lemma is_dot (c : ascii) : (PyStr.ord c =? 46)%nat = true <-> c = "."%char.
Proof.
  rewrite Nat.eqb_eq. unfold PyStr.ord. split.
  - intros H. rewrite <- (ascii_nat_embedding c), H. reflexivity.
  - intros ->. reflexivity.
Qed.

Lemma rsplit_dot_none (s : string) : has_dot s = false -> rsplit_dot s = [ s ].
Proof.
  induction s as [|c t IH]; simpl; [reflexivity|].
  intros H. apply orb_false_elim in H as [Hc Ht]. now rewrite (IH Ht), Hc.
Qed.

Lemma rsplit_dot_last (stem ext : string) :
  has_dot ext = false -> rsplit_dot (stem ++ String "." ext) = [ stem; ext ].
Proof.
  intros H. induction stem as [|c t IH]; simpl.
  - now rewrite (rsplit_dot_none _ H).
  - now rewrite IH.
Qed.

Lemma rsplit_dot_some (s : string) :
  has_dot s = true ->
  exists stem ext, s = stem ++ String "." ext /\ has_dot ext = false.
Proof.
  induction s as [|c t IH]; simpl; [discriminate|].
  destruct (has_dot t) eqn:Ht.
  - intros _. destruct (IH eq_refl) as (stem & ext & -> & H).
    now exists (String c stem), ext.
  - rewrite orb_false_r. intros ->%is_dot. now exists EmptyString, t.
Qed.

Lemma has_dot_app (a b : string) : has_dot (a ++ b) = has_dot a || has_dot b.
Proof. induction a as [|c t IH]; simpl; [reflexivity|]. now rewrite IH, orb_assoc. Qed.

(** X1: [allowed_file] accepts exactly the names that end in a dot and an
    extension without further dot that is "json" in any mix of cases; a
    name without a dot is refused. *)
Theorem allowed_file_spec (filename : string) :
  (allowed_file filename = true <->
   exists stem ext,
     filename = stem ++ String "." ext
     /\ has_dot ext = false
     /\ PyStr.lower ext = "json")
  /\ (has_dot filename = false -> allowed_file filename = false).
Proof.
  split.
  - unfold allowed_file. split.
    + intros H. apply andb_prop in H as [Hd He].
      destruct (rsplit_dot_some _ Hd) as (stem & ext & -> & Hx).
      rewrite rsplit_dot_last in He by exact Hx. cbn [nth_error] in He.
      exists stem, ext. repeat split; trivial.
      apply str_in_spec in He. simpl in He. intuition congruence.
    + intros (stem & ext & -> & Hx & Hl).
      rewrite has_dot_app, rsplit_dot_last by exact Hx. simpl.
      rewrite Hl, orb_true_r. reflexivity.
  - intros H. unfold allowed_file. now rewrite H.
Qed.

Lemma allowed_file_spec_witness :
  allowed_file "questions.JSON" = true /\ allowed_file "questions" = false.
Proof.
  split.
  - apply (proj1 (allowed_file_spec "questions.JSON")).
    exists "questions"%string, "JSON"%string. repeat split.
  - apply (proj2 (allowed_file_spec "questions")). reflexivity.
Defined.

Example allowed_file_samples :
  map allowed_file [ "a.json"; "a.JSON"; ".json"; "a.b.jSoN" ] = repeat true 4
  /\ map allowed_file [ "json"; "a.json.txt"; "a."; "a.json "; "" ] = repeat false 5.
Proof. split; reflexivity. Qed.

End Uploads.

(** ** The question summary *)

Section Summary.

Import TestApp.
Import TestSession.
Local Open Scope Z_scope.

Lemma sum_single (x : Z) : sum [x] = x.
Proof. unfold sum. simpl. lia. Qed.

Lemma contains_item (k : string) (d : categories) :
  contains k d = true <-> item k d <> None.
Proof.
  induction d as [|[k' e] d IH]; simpl; [intuition congruence|].
  destruct (k' =? k)%string; simpl; [intuition congruence | exact IH].
Qed.

Lemma contains_keys (k : string) (d : categories) :
  contains k d = true <-> In k (map fst d).
Proof.
  induction d as [|[k' e] d IH]; simpl; [intuition congruence|].
  rewrite orb_true_iff, IH, String.eqb_eq. reflexivity.
Qed.

Lemma update_keys (k : string) (f : entry -> entry) (d : categories) :
  map fst (update k f d) = map fst d.
Proof.
  induction d as [|[k' e] d IH]; simpl; [reflexivity|].
  destruct (k' =? k)%string; simpl; now rewrite ?IH.
Qed.

Lemma item_update (c k : string) (f : entry -> entry) (d : categories) :
  item c (update k f d)
  = if (k =? c)%string then option_map f (item k d) else item c d.
Proof.
  induction d as [|[k' e] d IH]; simpl; [now destruct (k =? c)%string|].
  destruct (String.eqb_spec k' k) as [->|Hk]; simpl.
  - destruct (k =? c)%string; reflexivity.
  - destruct (String.eqb_spec k' c) as [->|Hc].
    + destruct (String.eqb_spec k c) as [->|_]; [contradiction | reflexivity].
    + exact IH.
Qed.

Lemma item_insert_new (c k : string) (e : entry) (d : categories) :
  item c (insert_new k e d)
  = match item c d with
    | Some x => Some x
    | None => if (k =? c)%string then Some e else None
    end.
Proof.
  unfold insert_new. induction d as [|[k' e'] d IH]; simpl; [reflexivity|].
  destruct (k' =? c)%string; [reflexivity | exact IH].
Qed.

Lemma sum_update (g : entry -> Z) (k : string) (f : entry -> entry)
      (d : categories) (e : entry) :
  item k d = Some e ->
  sum (map (fun kv => g (snd kv)) (update k f d))
  = sum (map (fun kv => g (snd kv)) d) - g e + g (f e).
Proof.
  induction d as [|[k' e'] d IH]; simpl; [discriminate|].
  destruct (k' =? k)%string; simpl; rewrite !sum_cons.
  - intros [= ->]. simpl. lia.
  - intros H. rewrite (IH H). simpl. lia.
Qed.

Lemma count_total_update (k : string) (f : entry -> entry) (d : categories) (e : entry) :
  item k d = Some e ->
  count_total (update k f d) = count_total d - fst e + fst (f e).
Proof. exact (@sum_update fst k f d e). Qed.

Lemma points_total_update (k : string) (f : entry -> entry) (d : categories) (e : entry) :
  item k d = Some e ->
  points_total (update k f d) = points_total d - snd e + snd (f e).
Proof. exact (@sum_update snd k f d e). Qed.

Lemma summarizes_step (seen : list Question.t) (acc : categories * Z) (q : Question.t) :
  summarizes seen acc -> summarizes (seen ++ [q]) (count_question acc q).
Proof.
  destruct acc as [cats total]. intros (Ht & Hnd & Hitem & Hc & Hp). simpl in *.
  set (k := Question.category q). set (p := Question.points q).
  set (cats1 := if contains k cats then cats else insert_new k (0, 0) cats).
  assert (Hk1 : exists e, item k cats1 = Some e
                          /\ fst e = Z.of_nat (List.length (in_category k seen))
                          /\ snd e = sum (map Question.points (in_category k seen))
                          /\ count_total cats1 = count_total cats
                          /\ points_total cats1 = points_total cats
                          /\ NoDup (map fst cats1)
                          /\ forall c, c <> k -> item c cats1 = item c cats).
  { unfold cats1. destruct (contains k cats) eqn:Hin.
    - pose proof (proj1 (contains_item k cats) Hin) as Hsome.
      rewrite Hitem in *.
      destruct (existsb (fun q0 => Question.category q0 =? k)%string seen);
        [|congruence].
      eexists. split; [reflexivity|]. simpl. repeat split; trivial.
    - assert (Hnone : item k cats = None).
      { destruct (item k cats) eqn:E; [|reflexivity].
        assert (contains k cats = true) by (apply contains_item; congruence).
        congruence. }
      exists (0, 0). rewrite item_insert_new, Hnone, String.eqb_refl.
      rewrite Hitem in Hnone.
      destruct (existsb (fun q0 => Question.category q0 =? k)%string seen) eqn:Hex;
        [discriminate|].
      assert (Hemp : in_category k seen = []).
      { unfold in_category. clear - Hex.
        induction seen as [|x l IH]; simpl in *; [reflexivity|].
        apply orb_false_elim in Hex as [Hx Hl]. rewrite Hx. auto. }
      rewrite Hemp. simpl.
      split; [reflexivity|]. split; [reflexivity|]. split; [reflexivity|].
      unfold count_total, points_total, insert_new.
      rewrite !map_app, !sum_app. simpl. rewrite !sum_single.
      split; [apply Z.add_0_r|]. split; [apply Z.add_0_r|]. split.
      + apply NoDup_app; trivial.
        * repeat constructor. simpl. tauto.
        * intros x Hx [<-|[]]. apply contains_keys in Hx. congruence.
      + intros c Hck. change (item c (insert_new k (0, 0) cats) = item c cats).
        rewrite item_insert_new.
        destruct (item c cats); [reflexivity|].
        destruct (String.eqb_spec k c); congruence. }
  destruct Hk1 as (e & He & Hfst & Hsnd & Hc1 & Hp1 & Hnd1 & Hother).
  unfold summarizes. simpl. fold k p cats1.
  rewrite !map_app, !sum_app, length_app. simpl.
  rewrite sum_single. fold p.
  split; [lia|]. split; [now rewrite !update_keys|]. split; [|split].
  - intros c. rewrite !item_update, existsb_app. simpl. rewrite orb_false_r.
    unfold in_category. rewrite filter_app. simpl. fold k.
    destruct (String.eqb_spec k c) as [<-|Hkc].
    + rewrite He. simpl. rewrite orb_true_r, length_app, map_app, sum_app.
      simpl. rewrite sum_single. fold p. fold (in_category k seen).
      rewrite String.eqb_refl. simpl. rewrite Hfst, Hsnd. f_equal. f_equal. lia.
    + rewrite orb_false_r, Hother by congruence.
      rewrite Hitem. unfold in_category. now rewrite app_nil_r.
  - rewrite (@count_total_update k _ _ (fst e + 1, snd e)),
      (@count_total_update k _ _ e).
    + simpl. lia.
    + exact He.
    + now rewrite item_update, String.eqb_refl, He.
  - rewrite (@points_total_update k _ _ (fst e + 1, snd e)),
      (@points_total_update k _ _ e).
    + simpl. lia.
    + exact He.
    + now rewrite item_update, String.eqb_refl, He.
Qed.

Lemma summarizes_fold (rest seen : list Question.t) (acc : categories * Z) :
  summarizes seen acc ->
  summarizes (seen ++ rest) (fold_left count_question rest acc).
Proof.
  revert seen acc. induction rest as [|q rest IH]; intros seen acc H; simpl.
  - now rewrite app_nil_r.
  - replace (seen ++ q :: rest)%list with ((seen ++ [q]) ++ rest)%list
      by (now rewrite <- app_assoc).
    apply IH. now apply summarizes_step.
Qed.

Lemma summarizes_nil : summarizes [] ([], 0).
Proof. repeat split; constructor. Qed.

Lemma show_question_summary_some (questions : list Question.t) :
  questions <> [] ->
  show_question_summary questions
  = Some (fold_left count_question questions ([], 0))
  /\ summarizes questions (fold_left count_question questions ([], 0)).
Proof.
  intros H. split.
  - destruct questions; [contradiction | reflexivity].
  - apply (summarizes_fold questions summarizes_nil).
Qed.

(** X2: the summary of a non-empty question list has one entry per
    category that occurs among the questions, without repeated keys, and
    the entry of a category holds the number of its questions and the sum
    of their points. *)
Theorem show_question_summary_categories (questions : list Question.t) :
  questions <> [] ->
  exists cats total,
    show_question_summary questions = Some (cats, total)
    /\ NoDup (map fst cats)
    /\ (forall c, In c (map fst cats)
                  <-> exists q, In q questions /\ Question.category q = c)
    /\ (forall c e, item c cats = Some e ->
          fst e = Z.of_nat (List.length (in_category c questions))
          /\ snd e = sum (map Question.points (in_category c questions))).
Proof.
  intros H. destruct (show_question_summary_some H) as [E S].
  destruct (fold_left count_question questions ([], 0)) as [cats total].
  destruct S as (_ & Hnd & Hitem & _). simpl in *.
  exists cats, total. split; [exact E|]. split; [exact Hnd|]. split.
  - intros c. rewrite <- contains_keys, contains_item, Hitem.
    destruct (existsb (fun q => Question.category q =? c)%string questions) eqn:Hex.
    + split; [intros _ | discriminate].
      apply existsb_exists in Hex as (q & Hq & Hc). exists q.
      split; [exact Hq | now apply String.eqb_eq].
    + split; [congruence|]. intros (q & Hq & Hc).
      assert (existsb (fun q => Question.category q =? c)%string questions = true).
      { apply existsb_exists. exists q. split; [exact Hq | now apply String.eqb_eq]. }
      congruence.
  - intros c e He. rewrite Hitem in He.
    destruct (existsb _ questions); [|discriminate].
    injection He as <-. split; reflexivity.
Qed.

Lemma show_question_summary_categories_witness :
  exists cats total,
    show_question_summary Demo.questions = Some (cats, total)
    /\ NoDup (map fst cats)
    /\ (forall c, In c (map fst cats)
                  <-> exists q, In q Demo.questions /\ Question.category q = c)
    /\ (forall c e, item c cats = Some e ->
          fst e = Z.of_nat (List.length (in_category c Demo.questions))
          /\ snd e = sum (map Question.points (in_category c Demo.questions))).
Proof. apply show_question_summary_categories. discriminate. Defined.

(** X3: nothing is summarized when no questions are loaded; otherwise the
    total is the sum of the points of all questions, the counts of the
    categories add up to the number of questions and their points to the
    total. *)
Theorem show_question_summary_totals (questions : list Question.t) :
  (show_question_summary questions = None <-> questions = [])
  /\ (forall cats total,
        show_question_summary questions = Some (cats, total) ->
        total = sum (map Question.points questions)
        /\ count_total cats = Z.of_nat (List.length questions)
        /\ points_total cats = total).
Proof.
  split.
  - destruct questions; simpl; split; congruence.
  - intros cats total E.
    assert (H : questions <> []) by (intros ->; discriminate E).
    destruct (show_question_summary_some H) as [E' S].
    rewrite E in E'. injection E' as E'. rewrite <- E' in S.
    destruct S as (Ht & _ & _ & Hc & Hp). simpl in *. auto.
Qed.

Lemma show_question_summary_totals_witness :
  exists cats total,
    show_question_summary Demo.questions = Some (cats, total)
    /\ total = sum (map Question.points Demo.questions)
    /\ count_total cats = Z.of_nat (List.length Demo.questions)
    /\ points_total cats = total.
Proof.
  do 2 eexists. split; [reflexivity|].
  apply (proj2 (show_question_summary_totals Demo.questions)). reflexivity.
Defined.

End Summary.

(** ** Questions built from dictionaries, and how they score *)

Section Answerable.

Import Question.
Local Open Scope Z_scope.

Lemma blank_app (a b : string) :
  Spec.blank (a ++ b) = Spec.blank a && Spec.blank b.
Proof. induction a as [|c t IH]; simpl; [reflexivity|]. now rewrite IH, andb_assoc. Qed.

Lemma blank_lower (s : string) : Spec.blank (PyStr.lower s) = Spec.blank s.
Proof.
  induction s as [|c t IH]; simpl; [reflexivity|].
  now rewrite isspace_lower_char, IH.
Qed.

Lemma strip_empty (s : string) : PyStr.strip s = EmptyString <-> Spec.blank s = true.
Proof.
  split.
  - intros H. destruct (strip_trimmed s) as (l & r & E & Bl & Br & _).
    rewrite H in E. simpl in E. rewrite E, blank_app, Bl, Br. reflexivity.
  - intros H. unfold PyStr.strip. now rewrite blank_lstrip.
Qed.

Lemma strip_strip (s : string) : PyStr.strip (PyStr.strip s) = PyStr.strip s.
Proof.
  symmetry. apply trimmed_strip.
  destruct (strip_trimmed s) as (_ & _ & _ & _ & _ & Hs & He).
  exists EmptyString, EmptyString. simpl.
  repeat split; trivial. clear. induction (PyStr.strip s); simpl; congruence.
Qed.

Lemma lower_char_lower_char (c : ascii) :
  PyStr.lower_char (PyStr.lower_char c) = PyStr.lower_char c.
Proof. destruct c as [[] [] [] [] [] [] [] []]; reflexivity. Qed.

Lemma lower_lower (s : string) : PyStr.lower (PyStr.lower s) = PyStr.lower s.
Proof.
  induction s as [|c t IH]; simpl; [reflexivity|].
  now rewrite lower_char_lower_char, IH.
Qed.

(** The text [check_answer] compares is the same for an answer, the
    answer stripped and the answer in lower case. *)
Lemma clean_strip (a : string) :
  PyStr.strip (PyStr.lower (PyStr.strip a)) = PyStr.strip (PyStr.lower a).
Proof. now rewrite lower_strip, strip_strip. Qed.

Lemma clean_lower (a : string) :
  PyStr.strip (PyStr.lower (PyStr.lower a)) = PyStr.strip (PyStr.lower a).
Proof. now rewrite lower_lower. Qed.

Lemma correct_choice_in_options (q : Question.t) (a : string) :
  type q = "multiple_choice"%string ->
  fst (check_answer q a) = true ->
  In (correct_answer q) (options q).
Proof.
  intros Ht. unfold check_answer. rewrite Ht.
  destruct (PyStr.int a) as [n|]; [|discriminate]. cbv zeta.
  destruct ((0 <=? n - 1) && (n - 1 <? Z.of_nat (List.length (options q))));
    [|discriminate].
  destruct (nth_error (options q) (Z.to_nat (n - 1))) as [selected|] eqn:Hs;
    [|discriminate].
  simpl. intros E%String.eqb_eq. subst. now apply nth_error_In in Hs.
Qed.

Lemma no_correct_choice (q : Question.t) (a : string) :
  type q = "multiple_choice"%string ->
  ~ In (correct_answer q) (options q) ->
  check_answer q a = (false, 0).
Proof.
  intros Ht Hno. rewrite (surjective_pairing (check_answer q a)).
  rewrite check_answer_binary.
  destruct (fst (check_answer q a)) eqn:E; [|reflexivity].
  exfalso. apply Hno. now apply (@correct_choice_in_options q a).
Qed.

(** X4: a multiple-choice question can be answered correctly exactly when
    its correct answer is one of its options; with a correct answer that
    is no option, every answer scores (False, 0). *)
Theorem multiple_choice_answerable (q : Question.t) :
  type q = "multiple_choice"%string ->
  ((exists a, fst (check_answer q a) = true) <-> In (correct_answer q) (options q))
  /\ (~ In (correct_answer q) (options q) ->
      forall a, check_answer q a = (false, 0)).
Proof.
  intros Ht. split; [split|].
  - intros [a Ha]. now apply (@correct_choice_in_options q a).
  - intros Hin. apply In_nth_error in Hin as [i Hi].
    exists (Spec.numeral (S i)).
    rewrite (@check_answer_choice_eq q _ (Z.of_nat (S i)) (correct_answer q) Ht).
    + simpl. apply String.eqb_refl.
    + apply int_numeral.
    + replace (Z.to_nat (Z.of_nat (S i) - 1)) with i by lia. exact Hi.
    + lia.
  - intros Hno a. now apply no_correct_choice.
Qed.

Lemma multiple_choice_answerable_witness :
  exists a, fst (check_answer Demo.demo1 a) = true.
Proof.
  apply (proj1 (@multiple_choice_answerable Demo.demo1 eq_refl)).
  simpl. tauto.
Defined.

(** X5: for a true/false, fill-in or short-answer question the score of an
    answer does not change when the answer is stripped of surrounding
    white space or put in lower case first. *)
Theorem check_answer_clean (q : Question.t) (a : string) :
  type q = "true_false"%string \/ type q = "fill_blank"%string
  \/ type q = "short_answer"%string ->
  check_answer q (PyStr.strip a) = check_answer q a
  /\ check_answer q (PyStr.lower a) = check_answer q a.
Proof.
  intros [Ht | [Ht | Ht]]; unfold check_answer; rewrite Ht;
    cbv beta iota zeta; simpl; now rewrite clean_strip, clean_lower.
Qed.

Lemma check_answer_clean_witness :
  check_answer Demo.skin (PyStr.strip "  Skin ") = check_answer Demo.skin "  Skin "
  /\ check_answer Demo.skin (PyStr.lower "  Skin ") = check_answer Demo.skin "  Skin ".
Proof. apply check_answer_clean. right. left. reflexivity. Defined.

(** X6: a question built from a dictionary without the key ['options'],
    and without the key ['type'] or with the type multiple_choice, is a
    multiple-choice question without options: every answer scores
    (False, 0). *)
Theorem Question_init_no_options (data : Data.t) (a : string) :
  Data.options data = None ->
  Data.type data = None \/ Data.type data = Some "multiple_choice"%string ->
  type (Question_init data) = "multiple_choice"%string
  /\ check_answer (Question_init data) a = (false, 0).
Proof.
  intros Ho Ht.
  assert (Htype : type (Question_init data) = "multiple_choice"%string)
    by (destruct Ht as [E|E]; simpl; now rewrite E).
  split; [exact Htype|].
  apply no_correct_choice; [exact Htype|]. simpl. now rewrite Ho.
Qed.

Lemma Question_init_no_options_witness :
  type (Question_init Data.empty) = "multiple_choice"%string
  /\ check_answer (Question_init Data.empty) "1" = (false, 0).
Proof. apply Question_init_no_options; [reflexivity | now left]. Defined.

(** X7: a fill-in or short-answer question built from a dictionary without
    the key ['correct_answer'] has the empty correct answer: an answer is
    correct exactly when it is empty or white space only. *)
Theorem Question_init_no_correct_answer (data : Data.t) (a : string) :
  Data.correct_answer data = None ->
  Data.type data = Some "fill_blank"%string
  \/ Data.type data = Some "short_answer"%string ->
  (fst (check_answer (Question_init data) a) = true <-> Spec.blank a = true).
Proof.
  intros Hc Ht.
  rewrite check_answer_text_eq by (destruct Ht as [E|E]; simpl; rewrite E; auto).
  simpl. rewrite Hc. simpl.
  change (PyStr.strip (PyStr.lower a) =? "")%string
    with (PyStr.strip (PyStr.lower a) =? EmptyString)%string.
  now rewrite String.eqb_eq, strip_empty, blank_lower.
Qed.

Lemma Question_init_no_correct_answer_witness :
  fst (check_answer
         (Question_init
            (Data.mk None None (Some "fill_blank"%string) None None None None None))
         "  ") = true
  <-> Spec.blank "  " = true.
Proof. apply Question_init_no_correct_answer; [reflexivity | now left]. Defined.

End Answerable.

(** ** Sessions over sequences of calls *)

Section Traces.

Import TestSession.
Local Open Scope Z_scope.

Lemma run_app (cs cs' : list call) (s : t) : run (cs ++ cs') s = run cs' (run cs s).
Proof. unfold run. apply fold_left_app. Qed.

Lemma run_reachable (qs : list Question.t) (cs : list call) (s : t) :
  reachable qs s -> reachable qs (run cs s).
Proof.
  revert s. induction cs as [|c cs IH]; intros s H; simpl; [exact H|].
  apply IH. now apply reach_call.
Qed.

Lemma after_grows (c : call) (s : t) :
  exists l,
    results (after c s) = (results s ++ l)%list
    /\ current_question_index (after c s)
       = (current_question_index s + List.length l)%nat
    /\ questions (after c s) = questions s
    /\ (List.length l <= 1)%nat.
Proof.
  destruct c as [now | answer | now]; unfold after.
  - rewrite start_test_eq. exists []. simpl. rewrite app_nil_r. auto with arith.
  - destruct (nth_error (questions s) (current_question_index s)) as [q|] eqn:Hn.
    + rewrite (@submit_answer_ok answer s q Hn). exists [recorded q answer].
      simpl. auto.
    + rewrite (@submit_answer_past answer s Hn). exists []. simpl.
      rewrite app_nil_r. auto with arith.
  - destruct (start_time s) as [st|] eqn:Hst.
    + rewrite (@finish_test_ok now st s Hst). exists []. simpl.
      rewrite app_nil_r. auto with arith.
    + rewrite (@finish_test_unstarted now s Hst). exists []. simpl.
      rewrite app_nil_r. auto with arith.
Qed.

(** X8: the result list is append-only and moves together with the index.
    Whatever methods are called in whatever order, the recorded results
    stay as they are, new ones are only added behind them (at most one per
    call), the index goes up by the number of results added, and the
    question list is not changed. *)
Theorem results_append_only (calls : list call) (s : t) :
  exists added,
    results (run calls s) = (results s ++ added)%list
    /\ current_question_index (run calls s)
       = (current_question_index s + List.length added)%nat
    /\ questions (run calls s) = questions s
    /\ (List.length added <= List.length calls)%nat.
Proof.
  revert s. induction calls as [|c cs IH]; intros s; simpl.
  - exists []. rewrite app_nil_r. auto with arith.
  - destruct (after_grows c s) as (l & Hr & Hi & Hq & Hl).
    destruct (IH (after c s)) as (l' & Hr' & Hi' & Hq' & Hl').
    exists (l ++ l')%list. change (run (c :: cs) s) with (run cs (after c s)).
    rewrite Hr', Hi', Hq', Hr, Hi, Hq, length_app, <- app_assoc.
    repeat split; lia.
Qed.

Lemma after_start_time (c : call) (s : t) :
  start_time (after c s)
  = match c with
    | StartTest now => Some now
    | _ => start_time s
    end.
Proof.
  destruct c as [now | answer | now]; unfold after.
  - now rewrite start_test_eq.
  - destruct (nth_error (questions s) (current_question_index s)) as [q|] eqn:Hn.
    + now rewrite (@submit_answer_ok answer s q Hn).
    + now rewrite (@submit_answer_past answer s Hn).
  - destruct (start_time s) as [st|] eqn:Hst.
    + now rewrite (@finish_test_ok now st s Hst).
    + now rewrite (@finish_test_unstarted now s Hst).
Qed.

Lemma run_start_time (calls : list call) (s : t) :
  start_time (run calls s)
  = match last_start calls with
    | Some t => Some t
    | None => start_time s
    end.
Proof.
  revert s. induction calls as [|c cs IH]; intros s; [reflexivity|].
  change (run (c :: cs) s) with (run cs (after c s)).
  rewrite IH, after_start_time. simpl.
  destruct (last_start cs); [reflexivity|]. now destruct c.
Qed.

Lemma last_start_some (calls : list call) :
  (exists t, last_start calls = Some t) <-> (exists t, In (StartTest t) calls).
Proof.
  induction calls as [|c cs IH]; simpl.
  - split; intros [t H]; [discriminate | contradiction].
  - split.
    + intros [t H]. destruct (last_start cs) as [t'|] eqn:E.
      * destruct (proj1 IH (ex_intro _ t' eq_refl)) as [u Hu]. eauto.
      * destruct c; try discriminate. eauto.
    + intros [t [H|H]].
      * subst c. destruct (last_start cs); eauto.
      * destruct (proj2 IH (ex_intro _ t H)) as [u Hu]. rewrite Hu. eauto.
Qed.

(** X9: [finish_test] returns a summary exactly when [start_test] was
    called at some time before, in any position among the calls made on
    the session; otherwise it raises [TypeError].  The duration of the
    summary counts from the latest [start_test]: starting again restarts
    the clock. *)
Theorem finish_test_needs_start (qs : list Question.t) (calls : list call) (now : Z) :
  ((exists sm, fst (finish_test now (run calls (init qs))) = inr sm)
   <-> exists t, In (StartTest t) calls)
  /\ ((forall t, ~ In (StartTest t) calls) ->
      fst (finish_test now (run calls (init qs))) = inl TypeError)
  /\ (forall t sm,
        last_start calls = Some t ->
        fst (finish_test now (run calls (init qs))) = inr sm ->
        duration sm = now - t).
Proof.
  pose proof (run_start_time calls (init qs)) as Hst. simpl in Hst.
  split; [|split].
  - rewrite <- last_start_some. split.
    + intros [sm H]. destruct (last_start calls) as [t|]; [eauto|].
      rewrite (@finish_test_unstarted now _ Hst) in H. discriminate H.
    + intros [t E]. rewrite E in Hst.
      rewrite (@finish_test_ok now t _ Hst). simpl. eauto.
  - intros Hno. destruct (last_start calls) as [t|] eqn:E.
    + destruct (proj1 (last_start_some calls) (ex_intro _ t E)) as [u Hu].
      now apply Hno in Hu.
    + now rewrite (@finish_test_unstarted now _ Hst).
  - intros t sm E H. rewrite E in Hst.
    rewrite (@finish_test_ok now t _ Hst) in H. simpl in H.
    injection H as <-. reflexivity.
Qed.

Lemma finish_test_needs_start_witness :
  fst (finish_test 9
         (run [ SubmitAnswer "2"; SubmitAnswer "True" ] (init Demo.questions)))
  = inl TypeError
  /\ forall sm,
       fst (finish_test 9
              (run [ StartTest 1; SubmitAnswer "2"; StartTest 5 ]
                   (init Demo.questions))) = inr sm ->
       duration sm = 9 - 5.
Proof.
  split.
  - apply (proj1 (proj2 (finish_test_needs_start Demo.questions
                           [ SubmitAnswer "2"; SubmitAnswer "True" ] 9))).
    intros t [H|[H|[]]]; discriminate H.
  - intros sm.
    apply (proj2 (proj2 (finish_test_needs_start Demo.questions
                           [ StartTest 1; SubmitAnswer "2"; StartTest 5 ] 9))).
    reflexivity.
Defined.

Lemma recorded_correct_points (l : list Question.t) (l' : list Result.t) :
  Forall2 (fun q r => exists a, r = recorded q a) l l' ->
  sum (map Result.points_earned l')
  = sum (map Result.max_points (correct_results l')).
Proof.
  induction 1 as [|q r l l' [a E] _ IH]; [reflexivity|].
  unfold correct_results in *. simpl. rewrite sum_cons, IH, E. simpl.
  rewrite check_answer_binary.
  destruct (fst (Question.check_answer q a)); simpl; [now rewrite sum_cons | lia].
Qed.

(** X10: on every session a caller can see, the total points of the
    summary are the sum of the point values of the questions answered
    correctly: a result scored as correct earns the full points of its
    question, any other result earns nothing. *)
Theorem total_points_of_correct (qs : list Question.t) (s : t) (now st : Z) :
  reachable qs s ->
  start_time s = Some st ->
  exists sm s',
    finish_test now s = (inr sm, s')
    /\ total_points sm = sum (map Result.max_points (correct_results (results s)))
    /\ Forall (fun r => Result.points_earned r
                        = if Result.is_correct r then Result.max_points r else 0)
              (results s).
Proof.
  intros Hr Hst. apply reachable_consistent in Hr.
  destruct Hr as (_ & _ & _ & Hrec).
  rewrite (@finish_test_ok now st s Hst). do 2 eexists.
  split; [reflexivity|]. simpl. split.
  - now apply recorded_correct_points in Hrec.
  - clear - Hrec. induction Hrec as [|q r l l' [a E] _ IH]; constructor; [|exact IH].
    rewrite E. simpl. apply check_answer_binary.
Qed.

Lemma total_points_of_correct_witness :
  exists sm s',
    finish_test 7 Demo.answered = (inr sm, s')
    /\ total_points sm
       = sum (map Result.max_points (correct_results (results Demo.answered)))
    /\ Forall (fun r => Result.points_earned r
                        = if Result.is_correct r then Result.max_points r else 0)
              (results Demo.answered).
Proof.
  apply (@total_points_of_correct Demo.questions Demo.answered 7 0).
  - unfold Demo.answered, Demo.started. repeat apply reach_call. apply reach_init.
  - reflexivity.
Defined.

End Traces.

(** ** The interactive test *)

Section Interactive.

Import TestSession.
Import TestApp.
Local Open Scope Z_scope.

Lemma get_current_question_ok (s : TestSession.t) :
  (current_question_index s < List.length (questions s))%nat ->
  exists q,
    nth_error (questions s) (current_question_index s) = Some q
    /\ get_current_question s = (inr q, s).
Proof.
  intros H.
  destruct (nth_error (questions s) (current_question_index s)) as [q|] eqn:Hn;
    [|apply nth_error_None in Hn; lia].
  exists q. split; [reflexivity|].
  unfold get_current_question, bind, get. now rewrite Hn.
Qed.

Lemma sum_permutation (l l' : list Z) : Permutation l l' -> sum l = sum l'.
Proof.
  induction 1 as [| x l l' _ IH | x y l | l l' l'' _ IH1 _ IH2].
  - reflexivity.
  - now rewrite !sum_cons, IH.
  - rewrite !sum_cons. lia.
  - congruence.
Qed.

(** *** The rounds of the loop *)

Lemma answer_loop_done (keys : list keyboard) (s : TestSession.t) :
  (List.length (questions s) <= current_question_index s)%nat ->
  answer_loop keys s = (AllAnswered, s, keys).
Proof.
  intros H. apply Nat.ltb_ge in H. destruct keys; simpl; now rewrite H.
Qed.

Lemma answer_loop_eof (s : TestSession.t) :
  (current_question_index s < List.length (questions s))%nat ->
  answer_loop [] s = (EndOfInput, s, []).
Proof.
  intros H. destruct (@get_current_question_ok s H) as (q & _ & E).
  apply Nat.ltb_lt in H. simpl. now rewrite H, E.
Qed.

Lemma answer_loop_ctrlc (rest : list keyboard) (s : TestSession.t) :
  (current_question_index s < List.length (questions s))%nat ->
  answer_loop (CtrlC :: rest) s = (Interrupt, s, rest).
Proof.
  intros H. destruct (@get_current_question_ok s H) as (q & _ & E).
  apply Nat.ltb_lt in H. simpl. now rewrite H, E.
Qed.

Lemma answer_loop_quit_line (text : string) (rest : list keyboard) (s : TestSession.t) :
  (current_question_index s < List.length (questions s))%nat ->
  keeps_going text = false ->
  answer_loop (Line text :: rest) s = (Quit, s, rest).
Proof.
  intros H Hw. destruct (@get_current_question_ok s H) as (q & _ & E).
  apply Nat.ltb_lt in H. unfold keeps_going in Hw. apply negb_false_iff in Hw.
  cbn [answer_loop]. now rewrite H, E, Hw.
Qed.

Lemma after_submit (text : string) (s : TestSession.t) (q : Question.t) :
  nth_error (questions s) (current_question_index s) = Some q ->
  after (SubmitAnswer text) s
  = mk (questions s) (results s ++ [recorded q text])
       (start_time s) (end_time s) (current_question_index s + 1).
Proof. intros H. unfold after. now rewrite (@submit_answer_ok text s q H). Qed.

Lemma answer_loop_line (text : string) (rest : list keyboard) (s : TestSession.t) :
  (current_question_index s < List.length (questions s))%nat ->
  keeps_going text = true ->
  answer_loop (Line text :: rest) s
  = if (current_question_index s + 1 <? List.length (questions s))%nat
    then answer_loop rest (after (SubmitAnswer (PyStr.strip text)) s)
    else (AllAnswered, after (SubmitAnswer (PyStr.strip text)) s, rest).
Proof.
  intros H Hw. destruct (@get_current_question_ok s H) as (q & Hq & E).
  rewrite (@after_submit _ s q Hq).
  apply Nat.ltb_lt in H. unfold keeps_going in Hw. apply negb_true_iff in Hw.
  cbn [answer_loop]. rewrite H, E, Hw.
  rewrite (@submit_answer_ok (PyStr.strip text) s q Hq). reflexivity.
Qed.

Lemma after_submit_times (text : string) (s : TestSession.t) :
  start_time (after (SubmitAnswer text) s) = start_time s
  /\ end_time (after (SubmitAnswer text) s) = end_time s.
Proof.
  unfold after.
  destruct (nth_error (questions s) (current_question_index s)) as [q|] eqn:Hn.
  - now rewrite (@submit_answer_ok text s q Hn).
  - now rewrite (@submit_answer_past text s Hn).
Qed.

Lemma after_submit_shape (text : string) (s : TestSession.t) :
  (current_question_index s < List.length (questions s))%nat ->
  questions (after (SubmitAnswer text) s) = questions s
  /\ current_question_index (after (SubmitAnswer text) s)
     = (current_question_index s + 1)%nat.
Proof.
  intros H. destruct (@get_current_question_ok s H) as (q & Hq & _).
  now rewrite (@after_submit _ s q Hq).
Qed.

(** The loop, when enough lines that do not cancel come in. *)
Lemma answer_loop_answers (texts : list string) (rest : list keyboard) (s : TestSession.t) :
  forallb keeps_going texts = true ->
  (current_question_index s + List.length texts = List.length (questions s))%nat ->
  answer_loop (map Line texts ++ rest) s
  = (AllAnswered, run (submissions texts) s, rest).
Proof.
  revert s. induction texts as [|text texts IH]; intros s Hk Hlen.
  - simpl in Hlen. change (answer_loop rest s = (AllAnswered, s, rest)).
    apply answer_loop_done. lia.
  - cbn [forallb] in Hk. apply andb_prop in Hk as [Hk1 Hk2]. cbn [List.length] in Hlen.
    cbn [map app]. rewrite answer_loop_line by (trivial; lia).
    change (run (submissions (text :: texts)) s)
      with (run (submissions texts) (after (SubmitAnswer (PyStr.strip text)) s)).
    destruct (@after_submit_shape (PyStr.strip text) s) as [Hq Hi]; [lia|].
    destruct (current_question_index s + 1 <? List.length (questions s))%nat eqn:Hm.
    + apply IH; [exact Hk2 | rewrite Hq, Hi; lia].
    + apply Nat.ltb_ge in Hm. destruct texts; [reflexivity | simpl in Hlen; lia].
Qed.

(** The loop, when a cancelling line comes in before the last question. *)
Lemma answer_loop_cancel (texts : list string) (word : string) (rest : list keyboard)
      (s : TestSession.t) :
  forallb keeps_going texts = true ->
  keeps_going word = false ->
  (current_question_index s + List.length texts < List.length (questions s))%nat ->
  answer_loop (map Line texts ++ Line word :: rest) s
  = (Quit, run (submissions texts) s, rest).
Proof.
  revert s. induction texts as [|text texts IH]; intros s Hk Hw Hlen.
  - simpl in Hlen. change (answer_loop (Line word :: rest) s = (Quit, s, rest)).
    apply answer_loop_quit_line; [lia | exact Hw].
  - cbn [forallb] in Hk. apply andb_prop in Hk as [Hk1 Hk2]. cbn [List.length] in Hlen.
    cbn [map app]. rewrite answer_loop_line by (trivial; lia).
    change (run (submissions (text :: texts)) s)
      with (run (submissions texts) (after (SubmitAnswer (PyStr.strip text)) s)).
    destruct (@after_submit_shape (PyStr.strip text) s) as [Hq Hi]; [lia|].
    replace (current_question_index s + 1 <? List.length (questions s))%nat with true
      by (symmetry; apply Nat.ltb_lt; lia).
    apply IH; [exact Hk2 | exact Hw | rewrite Hq, Hi; lia].
Qed.

(** The loop on any input: it only submits answers it has stripped and
    that are no quit words, it raises nothing, it leaves the start time
    alone, and when it ends with [AllAnswered] no question is left. *)
Lemma answer_loop_any (keys : list keyboard) (s : TestSession.t) :
  exists answers,
    snd (fst (answer_loop keys s)) = run (map SubmitAnswer answers) s
    /\ (forall e, fst (fst (answer_loop keys s)) <> Raised e)
    /\ (fst (fst (answer_loop keys s)) = AllAnswered ->
        (List.length (questions (snd (fst (answer_loop keys s))))
         <= current_question_index (snd (fst (answer_loop keys s))))%nat)
    /\ (Forall (fun r => typed_answer (Result.user_answer r)) (results s) ->
        Forall (fun r => typed_answer (Result.user_answer r))
               (results (snd (fst (answer_loop keys s)))))
    /\ start_time (snd (fst (answer_loop keys s))) = start_time s
    /\ end_time (snd (fst (answer_loop keys s))) = end_time s.
Proof.
  revert s. induction keys as [|key keys IH]; intros s;
    destruct (Nat.le_gt_cases (List.length (questions s)) (current_question_index s))
      as [Hg|Hg];
    try (rewrite answer_loop_done by exact Hg; exists []; simpl;
         repeat split; trivial; discriminate).
  - rewrite answer_loop_eof by exact Hg. exists []. simpl.
    repeat split; trivial; discriminate.
  - destruct key as [text|];
      [|rewrite answer_loop_ctrlc by exact Hg; exists []; simpl;
        repeat split; trivial; discriminate].
    destruct (keeps_going text) eqn:Hw;
      [|rewrite answer_loop_quit_line by trivial; exists []; simpl;
        repeat split; trivial; discriminate].
    rewrite answer_loop_line by trivial.
    destruct (@get_current_question_ok s Hg) as (q & Hq & _).
    pose proof (@after_submit (PyStr.strip text) s q Hq) as Ha.
    assert (Ht : typed_answer (PyStr.strip text)).
    { split; [apply strip_strip|]. unfold keeps_going in Hw.
      now apply negb_true_iff in Hw. }
    assert (Hres : Forall (fun r => typed_answer (Result.user_answer r)) (results s) ->
                   Forall (fun r => typed_answer (Result.user_answer r))
                          (results (after (SubmitAnswer (PyStr.strip text)) s))).
    { intros H. rewrite Ha. simpl. apply Forall_app. split; [exact H|].
      constructor; [exact Ht | constructor]. }
    destruct (current_question_index s + 1 <? List.length (questions s))%nat eqn:Hm.
    + destruct (IH (after (SubmitAnswer (PyStr.strip text)) s))
        as (answers & Hs & Hr & Hall & Hty & Hst & Het).
      exists (PyStr.strip text :: answers).
      split; [exact Hs|]. split; [exact Hr|]. split; [exact Hall|].
      split; [auto|]. rewrite Hst, Het. apply after_submit_times.
    + apply Nat.ltb_ge in Hm. exists [PyStr.strip text].
      split; [reflexivity|]. split; [discriminate|]. cbn [fst snd].
      split; [intros _; rewrite Ha; simpl; exact Hm|].
      split; [exact Hres|]. apply after_submit_times.
Qed.

Lemma run_submissions (texts : list string) (s : TestSession.t) :
  (current_question_index s + List.length texts <= List.length (questions s))%nat ->
  List.length (results (run (submissions texts) s))
  = (List.length (results s) + List.length texts)%nat
  /\ start_time (run (submissions texts) s) = start_time s
  /\ end_time (run (submissions texts) s) = end_time s.
Proof.
  revert s. induction texts as [|text texts IH]; intros s H.
  - simpl. auto.
  - cbn [List.length] in H.
    destruct (@get_current_question_ok s) as (q & Hq & _); [lia|].
    pose proof (@after_submit (PyStr.strip text) s q Hq) as Ha.
    change (run (submissions (text :: texts)) s)
      with (run (submissions texts) (after (SubmitAnswer (PyStr.strip text)) s)).
    destruct (IH (after (SubmitAnswer (PyStr.strip text)) s)) as (Hl & Hs & He).
    + rewrite Ha. simpl. lia.
    + rewrite Hl, Hs, He, Ha. simpl. rewrite length_app. simpl.
      repeat split. lia.
Qed.

(** A line cancels the test exactly when it is one of the quit words up
    to case and surrounding white space. *)
Lemma keeps_going_spec (text : string) :
  keeps_going text = false
  <-> exists w, In w quit_words /\ Spec.same_text text w.
Proof.
  unfold keeps_going. rewrite negb_false_iff, str_in_spec, lower_strip. split.
  - intros H. exists (PyStr.strip (PyStr.lower text)). split; [exact H|].
    apply same_text_clean.
    simpl in H. decompose [or] H; try contradiction;
      match goal with E : _ = PyStr.strip _ |- _ => rewrite <- E end; reflexivity.
  - intros [w [Hw H]]. apply same_text_clean in H. rewrite H.
    simpl in Hw. decompose [or] Hw; subst; simpl; tauto.
Qed.

(** *** The whole method *)

Lemma start_interactive_test_eq
      (q0 : Question.t) (qs : list Question.t) (test_session : option TestSession.t)
      (randomize : bool) (shuffled : list Question.t)
      (now0 now1 : Z) (keys : list keyboard) :
  start_interactive_test (q0 :: qs) test_session randomize shuffled now0 now1 keys
  = let s0 := after (StartTest now0)
                    (init (if randomize then shuffled else q0 :: qs)) in
    match answer_loop keys s0 with
    | (Quit, s, _) => (Cancelled, Some s)
    | (Interrupt, s, _) => (Interrupted, Some s)
    | (EndOfInput, s, _) => (InputEnded, Some s)
    | (Raised e, s, _) => (Failed e, Some s)
    | (AllAnswered, s, keys) =>
        match finish_test now1 s with
        | (inl e, s) => (Failed e, Some s)
        | (inr final_score, s) =>
            match ask_yes keys with
            | (None, _) => (InputEnded, Some s)
            | (Some show_details, keys) =>
                match ask_yes keys with
                | (None, _) => (InputEnded, Some s)
                | (Some save, _) =>
                    (Completed final_score show_details save, Some s)
                end
            end
        end
    end.
Proof. reflexivity. Qed.

(** X11: whenever the interactive test ends with a summary, every
    question was answered: the max points of the summary are the sum of
    the points of all loaded questions, shuffled or not, there is one
    result per question, every recorded answer is stripped and none is a
    quit word, and the duration runs from the start of the test. *)
Theorem start_interactive_test_completed
      (questions : list Question.t) (test_session : option TestSession.t)
      (randomize : bool) (shuffled : list Question.t)
      (now0 now1 : Z) (keys : list keyboard)
      (sm : summary) (show_details save : bool) (s : TestSession.t) :
  (randomize = true -> Permutation questions shuffled) ->
  start_interactive_test questions test_session randomize shuffled now0 now1 keys
  = (Completed sm show_details save, Some s) ->
  max_points sm = sum (map Question.points questions)
  /\ List.length (results s) = List.length questions
  /\ total_points sm = sum (map Result.points_earned (results s))
  /\ Forall (fun r => typed_answer (Result.user_answer r)) (results s)
  /\ duration sm = now1 - now0.
Proof.
  intros Hperm E. destruct questions as [|q0 qs]; [discriminate E|].
  rewrite start_interactive_test_eq in E. cbv zeta in E.
  set (qs' := if randomize then shuffled else q0 :: qs) in *.
  assert (Hp : Permutation (q0 :: qs) qs')
    by (unfold qs'; destruct randomize; auto).
  set (s0 := after (StartTest now0) (init qs')) in *.
  destruct (answer_loop_any keys s0) as (answers & Hs & _ & Hall & Hty & Hst & _).
  destruct (answer_loop keys s0) as [[e s1] keys1]. cbn [fst snd] in *.
  destruct e; try discriminate E. specialize (Hall eq_refl).
  assert (Hreach : reachable qs' s1).
  { rewrite Hs. apply run_reachable. apply reach_call, reach_init. }
  pose proof (reachable_consistent Hreach) as Hc.
  pose proof Hc as (Hq & Hi & Hle & _).
  rewrite (@finish_test_ok now1 now0 s1 Hst) in E.
  destruct (ask_yes keys1) as [[b1|] keys2]; [|discriminate E].
  destruct (ask_yes keys2) as [[b2|] keys3]; [|discriminate E].
  injection E as <- <- <- <-. simpl.
  assert (Hlen : List.length (results s1) = List.length qs') by (rewrite Hq in Hall; lia).
  rewrite (consistent_max_points Hc), Hlen, firstn_all.
  split; [symmetry; apply sum_permutation; exact (Permutation_map Question.points Hp)|].
  split; [symmetry; apply (Permutation_length Hp)|].
  split; [reflexivity|]. split; [|reflexivity].
  apply Hty. constructor.
Qed.

(** X12: the interactive test never ends in an exception raised by the
    session: the loop stops before [submit_answer] could run past the
    last question, and [finish_test] only comes after [start_test]. *)
Theorem start_interactive_test_never_fails
      (questions : list Question.t) (test_session : option TestSession.t)
      (randomize : bool) (shuffled : list Question.t)
      (now0 now1 : Z) (keys : list keyboard) (e : exception) :
  fst (start_interactive_test questions test_session randomize shuffled now0 now1 keys)
  <> Failed e.
Proof.
  destruct questions as [|q0 qs]; [discriminate|].
  rewrite start_interactive_test_eq. cbv zeta.
  set (s0 := after (StartTest now0) (init (if randomize then shuffled else q0 :: qs))).
  destruct (answer_loop_any keys s0) as (answers & _ & Hr & _ & _ & Hst & _).
  destruct (answer_loop keys s0) as [[l s1] keys1]. cbn [fst snd] in *.
  destruct l; try discriminate; [|now destruct (Hr e0)].
  rewrite (@finish_test_ok now1 now0 s1 Hst).
  destruct (ask_yes keys1) as [[b1|] keys2]; [|discriminate].
  destruct (ask_yes keys2) as [[b2|] keys3]; discriminate.
Qed.

(** X13: when a line comes in for every question, none of them a quit
    word, and two more lines answer the prompts that follow, the
    interactive test ends with a summary; the two flags are whether the
    prompts were answered with y or yes. *)
Theorem start_interactive_test_completes
      (questions : list Question.t) (test_session : option TestSession.t)
      (randomize : bool) (shuffled : list Question.t) (now0 now1 : Z)
      (texts : list string) (details saving : string) (rest : list keyboard) :
  questions <> [] ->
  (randomize = true -> Permutation questions shuffled) ->
  List.length texts = List.length questions ->
  forallb keeps_going texts = true ->
  exists sm s,
    start_interactive_test questions test_session randomize shuffled now0 now1
      (map Line texts ++ Line details :: Line saving :: rest)
    = (Completed sm
         (Question.str_in (PyStr.strip (PyStr.lower details)) yes_words)
         (Question.str_in (PyStr.strip (PyStr.lower saving)) yes_words),
       Some s)
    /\ end_time s = Some now1.
Proof.
  intros Hne Hperm Hlen Hk. destruct questions as [|q0 qs]; [contradiction|].
  rewrite start_interactive_test_eq. cbv zeta.
  set (qs' := if randomize then shuffled else q0 :: qs).
  assert (Hl : List.length qs' = List.length (q0 :: qs)).
  { unfold qs'. destruct randomize; [|reflexivity].
    symmetry. now apply Permutation_length, Hperm. }
  set (s0 := after (StartTest now0) (init qs')).
  rewrite answer_loop_answers by (trivial; simpl; lia).
  destruct (@run_submissions texts s0) as (_ & Hst & _); [simpl; lia|].
  rewrite (@finish_test_ok now1 now0 (run (submissions texts) s0) Hst).
  simpl. eauto.
Qed.

Lemma start_interactive_test_completes_witness :
  exists sm s,
    start_interactive_test Demo.questions None false [] 0 9
      (map Line [ " 2 "; "yes" ] ++ Line "Y" :: Line "n" :: [])
    = (Completed sm
         (Question.str_in (PyStr.strip (PyStr.lower "Y")) yes_words)
         (Question.str_in (PyStr.strip (PyStr.lower "n")) yes_words),
       Some s)
    /\ end_time s = Some 9.
Proof.
  apply start_interactive_test_completes;
    [discriminate | discriminate | reflexivity | reflexivity].
Defined.

Lemma start_interactive_test_completed_witness :
  exists sm s,
    start_interactive_test Demo.questions None false [] 0 9
      [ Line " 2 "; Line "yes"; Line "Y"; Line "n" ]
    = (Completed sm true false, Some s)
    /\ max_points sm = sum (map Question.points Demo.questions)
    /\ List.length (results s) = List.length Demo.questions
    /\ total_points sm = sum (map Result.points_earned (results s))
    /\ Forall (fun r => typed_answer (Result.user_answer r)) (results s)
    /\ duration sm = 9 - 0.
Proof.
  do 2 eexists. split.
  - lazy. reflexivity.
  - apply (@start_interactive_test_completed Demo.questions None false [] 0 9
             [ Line " 2 "; Line "yes"; Line "Y"; Line "n" ] _ true false _).
    + discriminate.
    + lazy. reflexivity.
Defined.

(** X14: a line that is quit, exit or q up to case and surrounding white
    space, typed before the last question is answered, cancels the test:
    the answers before it are recorded, the cancelling line is not, and
    no end time is set, so no summary exists. *)
Theorem start_interactive_test_cancel
      (questions : list Question.t) (test_session : option TestSession.t)
      (randomize : bool) (shuffled : list Question.t) (now0 now1 : Z)
      (texts : list string) (word : string) (rest : list keyboard) :
  (randomize = true -> Permutation questions shuffled) ->
  (List.length texts < List.length questions)%nat ->
  forallb keeps_going texts = true ->
  (exists w, In w quit_words /\ Spec.same_text word w) ->
  exists s,
    start_interactive_test questions test_session randomize shuffled now0 now1
      (map Line texts ++ Line word :: rest)
    = (Cancelled, Some s)
    /\ List.length (results s) = List.length texts
    /\ end_time s = None.
Proof.
  intros Hperm Hlen Hk Hw. apply keeps_going_spec in Hw.
  destruct questions as [|q0 qs]; [simpl in Hlen; lia|].
  rewrite start_interactive_test_eq. cbv zeta.
  set (qs' := if randomize then shuffled else q0 :: qs).
  assert (Hl : List.length qs' = List.length (q0 :: qs)).
  { unfold qs'. destruct randomize; [|reflexivity].
    symmetry. now apply Permutation_length, Hperm. }
  set (s0 := after (StartTest now0) (init qs')).
  rewrite answer_loop_cancel by (trivial; simpl; lia).
  destruct (@run_submissions texts s0) as (Hr & _ & He); [simpl; lia|].
  eexists. split; [reflexivity|]. simpl in *. auto.
Qed.

Lemma start_interactive_test_cancel_witness :
  exists s,
    start_interactive_test Demo.questions None false [] 0 9
      (map Line [ "2" ] ++ Line " QUIT " :: [])
    = (Cancelled, Some s)
    /\ List.length (results s) = List.length [ "2" ]
    /\ end_time s = None.
Proof.
  apply start_interactive_test_cancel.
  - discriminate.
  - simpl. lia.
  - reflexivity.
  - apply keeps_going_spec. reflexivity.
Defined.

(** The session the method leaves behind, however it ends. *)
Lemma start_interactive_test_session
      (q0 : Question.t) (qs : list Question.t) (test_session : option TestSession.t)
      (randomize : bool) (shuffled : list Question.t)
      (now0 now1 : Z) (keys : list keyboard) (s : TestSession.t) :
  snd (start_interactive_test (q0 :: qs) test_session randomize shuffled now0 now1 keys)
  = Some s ->
  reachable (if randomize then shuffled else q0 :: qs) s
  /\ Forall (fun r => typed_answer (Result.user_answer r)) (results s).
Proof.
  rewrite start_interactive_test_eq. cbv zeta.
  set (qs' := if randomize then shuffled else q0 :: qs).
  set (s0 := after (StartTest now0) (init qs')).
  destruct (answer_loop_any keys s0) as (answers & Hs & _ & _ & Hty & Hst & _).
  assert (Hreach : reachable qs' (snd (fst (answer_loop keys s0)))).
  { rewrite Hs. apply run_reachable. apply reach_call, reach_init. }
  specialize (Hty (Forall_nil _)).
  destruct (answer_loop keys s0) as [[l s1] keys1]. cbn [fst snd] in *.
  destruct l; cbn [snd]; try (intros [= <-]; now split).
  rewrite (@finish_test_ok now1 now0 s1 Hst).
  assert (Hfin : reachable qs' (after (FinishTest now1) s1)) by now apply reach_call.
  unfold after in Hfin. rewrite (@finish_test_ok now1 now0 s1 Hst) in Hfin.
  cbn [snd] in Hfin.
  destruct (ask_yes keys1) as [[b1|] keys2];
    [destruct (ask_yes keys2) as [[b2|] keys3]|]; cbn [snd];
    intros [= <-]; now split.
Qed.

(** X21: in the interactive test a fill-in or short-answer question whose
    correct answer is one of the quit words (up to case and surrounding
    white space) is never scored correct: the only lines that would match
    it cancel the test instead of being submitted. *)
Theorem quit_word_never_scored
      (questions : list Question.t) (test_session : option TestSession.t)
      (randomize : bool) (shuffled : list Question.t)
      (now0 now1 : Z) (keys : list keyboard) (s : TestSession.t)
      (i : nat) (q : Question.t) (r : Result.t) :
  questions <> [] ->
  snd (start_interactive_test questions test_session randomize shuffled now0 now1 keys)
  = Some s ->
  nth_error (TestSession.questions s) i = Some q ->
  nth_error (results s) i = Some r ->
  Question.type q = "fill_blank"%string \/ Question.type q = "short_answer"%string ->
  (exists w, In w quit_words /\ Spec.same_text (Question.correct_answer q) w) ->
  Result.is_correct r = false.
Proof.
  intros Hne E Hq Hr Ht Hw. destruct questions as [|q0 qs]; [contradiction|].
  apply start_interactive_test_session in E as [Hreach Hty].
  apply reachable_consistent in Hreach. destruct Hreach as (Hqs & _ & _ & Hrec).
  destruct (Forall2_nth_right Hrec _ Hr) as (q' & Hq' & a & Ea).
  apply nth_error_firstn_some in Hq'. rewrite <- Hqs, Hq in Hq'.
  injection Hq' as <-.
  assert (Ha : typed_answer a).
  { apply nth_error_In in Hr. rewrite Forall_forall in Hty.
    specialize (Hty r Hr). now rewrite Ea in Hty. }
  destruct Ha as [Hstrip Hquit].
  rewrite Ea. cbn [Result.is_correct recorded].
  rewrite check_answer_text_eq by exact Ht.
  apply not_true_is_false. intros Heq. apply String.eqb_eq in Heq.
  apply keeps_going_spec in Hw. unfold keeps_going in Hw.
  apply negb_false_iff in Hw.
  rewrite lower_strip, <- Heq, <- lower_strip, Hstrip in Hw. congruence.
Qed.

Lemma quit_word_never_scored_witness :
  Result.is_correct (recorded quit_question "w") = false.
Proof.
  apply (@quit_word_never_scored
           [ quit_question ] None false [] 0 9 [ Line "w"; Line "n"; Line "n" ]
           (TestSession.mk [ quit_question ] [ recorded quit_question "w" ]
                           (Some 0) (Some 9) 1)
           0 quit_question (recorded quit_question "w")).
  - discriminate.
  - reflexivity.
  - reflexivity.
  - reflexivity.
  - right. reflexivity.
  - apply keeps_going_spec. reflexivity.
Defined.

End Interactive.

(** ** The test pages of the web application *)

Section WebPages.

Import WebApp.
Local Open Scope Z_scope.

Lemma web_submit_ok (form_answer : option string) (s : Session) (d : Data.t) :
  nth_error (Data.get (test_questions s) []) (Data.get (current_question s) 0%nat)
  = Some d ->
  submit_answer form_answer s
  = (Redirect "take_test" None,
     mk_session (questions s) (test_questions s)
                (Some (Data.get (current_question s) 0 + 1)%nat)
                (Some (Data.get (test_results s) []
                       ++ [web_recorded (Question_init d)
                                        (PyStr.strip (Data.get form_answer ""))])%list)
                (test_start_time s) (randomized s)).
Proof.
  intros H. unfold submit_answer. cbv zeta.
  assert (Hlt : (Data.get (current_question s) 0
                 < List.length (Data.get (test_questions s) []))%nat)
    by (apply nth_error_Some; congruence).
  apply Nat.leb_gt in Hlt. rewrite Hlt, H. unfold web_recorded.
  destruct (Question.check_answer _ _). reflexivity.
Qed.

Lemma web_submit_past (form_answer : option string) (s : Session) :
  (List.length (Data.get (test_questions s) [])
   <= Data.get (current_question s) 0)%nat ->
  submit_answer form_answer s = (Redirect "test_complete" None, s).
Proof.
  intros H. unfold submit_answer. cbv zeta. apply Nat.leb_le in H. now rewrite H.
Qed.

Lemma handle_never_fails (r : request) (s : Session) (e : exception) :
  fst (handle r s) <> ServerError e.
Proof.
  destruct r as [arg sampled now | | form | now]; cbn [handle].
  - unfold start_test. destruct (Data.get (questions s) []); simpl; discriminate.
  - unfold take_test. cbv zeta.
    destruct (Data.get (test_questions s) []) as [|d ds] eqn:Hq;
      [simpl; discriminate|].
    cbn [orb].
    destruct (List.length (d :: ds) <=? Data.get (current_question s) 0)%nat eqn:Hg;
      [simpl; discriminate|].
    apply Nat.leb_gt, nth_error_Some in Hg.
    destruct (nth_error (d :: ds) (Data.get (current_question s) 0%nat));
      [simpl; discriminate | contradiction].
  - destruct (nth_error (Data.get (test_questions s) [])
                        (Data.get (current_question s) 0%nat)) as [d|] eqn:Hn.
    + rewrite (@web_submit_ok form s d Hn). simpl. discriminate.
    + rewrite web_submit_past by (now apply nth_error_None). simpl. discriminate.
  - unfold test_complete. destruct (Data.get (test_results s) []); simpl; discriminate.
Qed.

Lemma handle_in_step (r : request) (s : Session) :
  in_step s -> in_step (snd (handle r s)).
Proof.
  intros H. destruct r as [arg sampled now | | form | now]; cbn [handle].
  - unfold start_test. destruct (Data.get (questions s) []); cbn [snd].
    + exact H.
    + split; simpl; [reflexivity | apply Nat.le_0_l].
  - unfold take_test. cbv zeta.
    destruct (_ || _); [exact H|].
    destruct (nth_error _ _); exact H.
  - destruct (nth_error (Data.get (test_questions s) [])
                        (Data.get (current_question s) 0%nat)) as [d|] eqn:Hn.
    + rewrite (@web_submit_ok form s d Hn). destruct H as [Hl Hi].
      unfold in_step. simpl.
      assert ((Data.get (current_question s) 0
               < List.length (Data.get (test_questions s) []))%nat)
        by (apply nth_error_Some; congruence).
      rewrite length_app. simpl. split; lia.
    + rewrite web_submit_past by (now apply nth_error_None). exact H.
  - unfold test_complete. destruct (Data.get (test_results s) []); exact H.
Qed.

(** X15: on a session whose question dictionaries hold values of the
    question-set format, the test pages keep the question index in range:
    through any sequence of requests the number of stored results stays
    equal to the question index, which never passes the number of test
    questions, so that no page raises the [IndexError] of the lookup in
    the question list; an answer posted when no question is left changes
    nothing and redirects to the result page. *)
Theorem web_pages_in_step (requests : list request) (s : Session) :
  in_step s ->
  in_step (serve requests s)
  /\ (forall r, fst (handle r (serve requests s)) <> ServerError IndexError)
  /\ (forall form_answer,
        Data.get (current_question (serve requests s)) 0%nat
        = List.length (Data.get (test_questions (serve requests s)) []) ->
        submit_answer form_answer (serve requests s)
        = (Redirect "test_complete" None, serve requests s)).
Proof.
  intros H.
  assert (Hs : in_step (serve requests s)).
  { revert s H. induction requests as [|r rs IH]; intros s H; [exact H|].
    apply (IH (snd (handle r s))). now apply handle_in_step. }
  split; [exact Hs|]. split; [intros r; apply handle_never_fails|].
  intros form E. apply web_submit_past. lia.
Qed.

Lemma web_pages_in_step_witness :
  in_step (serve (GetStartTest None [] 0 :: posts [ "2"; "true"; "again" ])
                 (session_with [ question_dict Demo.demo1; question_dict Demo.demo2 ])).
Proof.
  apply (@web_pages_in_step
           (GetStartTest None [] 0 :: posts [ "2"; "true"; "again" ])
           (session_with [ question_dict Demo.demo1; question_dict Demo.demo2 ])).
  split; simpl; lia.
Defined.

(** *** The web pages and the session class *)

Lemma Question_init_dict (q : Question.t) : Question_init (question_dict q) = q.
Proof. now destruct q. Qed.

Lemma loaded_questions_init (raw : list Data.t) :
  map Question_init (loaded_questions raw) = map Question_init raw.
Proof.
  unfold loaded_questions. rewrite map_map. apply map_ext.
  intros d. apply Question_init_dict.
Qed.

Lemma same_score_recorded (q : Question.t) (a : string) :
  same_score (web_recorded q a) (recorded q a).
Proof. repeat split. Qed.

Lemma same_score_sums (rs rs' : list Result.t) :
  Forall2 same_score rs rs' ->
  map Result.points_earned rs = map Result.points_earned rs'
  /\ map Result.max_points rs = map Result.max_points rs'.
Proof.
  induction 1 as [|r r' rs rs' (_ & _ & _ & Hp & Hm & _) _ [IH1 IH2]]; simpl;
    [auto|]. now rewrite Hp, Hm, IH1, IH2.
Qed.

(** Posting answers to the web pages and submitting them, stripped, to a
    session over the same questions keep the stored results in step. *)
Lemma posts_like_submits (texts : list string) (w : Session) (s : TestSession.t) :
  map Question_init (Data.get (test_questions w) []) = TestSession.questions s ->
  Data.get (current_question w) 0%nat = TestSession.current_question_index s ->
  Forall2 same_score (Data.get (test_results w) []) (TestSession.results s) ->
  Forall2 same_score (Data.get (test_results (serve (posts texts) w)) [])
          (TestSession.results (run (submissions texts) s))
  /\ test_start_time (serve (posts texts) w) = test_start_time w
  /\ TestSession.start_time (run (submissions texts) s) = TestSession.start_time s.
Proof.
  revert w s. induction texts as [|text texts IH]; intros w s Hq Hi Hr; [auto|].
  change (serve (posts (text :: texts)) w)
    with (serve (posts texts) (snd (submit_answer (Some text) w))).
  change (run (submissions (text :: texts)) s)
    with (run (submissions texts)
              (TestSession.after (TestSession.SubmitAnswer (PyStr.strip text)) s)).
  destruct (nth_error (Data.get (test_questions w) [])
                      (Data.get (current_question w) 0%nat)) as [d|] eqn:Hn.
  - assert (Hn' : nth_error (TestSession.questions s)
                            (TestSession.current_question_index s)
                  = Some (Question_init d))
      by (rewrite <- Hq, <- Hi; now apply map_nth_error).
    rewrite (@web_submit_ok (Some text) w d Hn).
    rewrite (@after_submit (PyStr.strip text) s (Question_init d) Hn').
    cbn [snd].
    match goal with
    | |- context [serve (posts texts) ?w1] =>
        match goal with
        | |- context [run (submissions texts) ?s1] =>
            destruct (IH w1 s1) as (H1 & H2 & H3)
        end
    end.
    + exact Hq.
    + simpl. now rewrite Hi.
    + simpl. apply Forall2_app; [exact Hr|].
      constructor; [apply same_score_recorded | constructor].
    + split; [exact H1|]. split; [rewrite H2 | rewrite H3]; reflexivity.
  - assert (Hn' : nth_error (TestSession.questions s)
                            (TestSession.current_question_index s) = None).
    { apply nth_error_None. apply nth_error_None in Hn.
      rewrite <- Hq, <- Hi, length_map. exact Hn. }
    rewrite web_submit_past by (now apply nth_error_None).
    assert (Ha : TestSession.after (TestSession.SubmitAnswer (PyStr.strip text)) s = s)
      by (unfold TestSession.after; now rewrite (@submit_answer_past _ s Hn')).
    rewrite Ha. cbn [snd]. now apply IH.
Qed.

(** *** The duration text *)

Lemma uint_no_dot (u : Decimal.uint) : has_dot (NilEmpty.string_of_uint u) = false.
Proof. induction u; simpl; auto. Qed.

Lemma decimal_no_dot (z : Z) : has_dot (decimal z) = false.
Proof.
  unfold decimal. destruct (z <? 0); [change (has_dot ("-" ++ ?x)) with (has_dot x)|];
    apply uint_no_dot.
Qed.

Lemma padded_no_dot (width : nat) (text : string) :
  has_dot text = false -> has_dot (padded width text) = false.
Proof.
  intros H. unfold padded. rewrite has_dot_app, H, orb_false_r.
  induction (width - String.length text)%nat; simpl; auto.
Qed.

Lemma before_dot_all (a : string) : has_dot a = false -> before_dot a = a.
Proof.
  induction a as [|c t IH]; simpl; [reflexivity|].
  intros H. apply orb_false_elim in H as [Hc Ht]. now rewrite Hc, IH.
Qed.

Lemma before_dot_app (a b : string) :
  has_dot a = false -> before_dot (a ++ String "." b) = a.
Proof.
  induction a as [|c t IH]; simpl; [reflexivity|].
  intros H. apply orb_false_elim in H as [Hc Ht]. now rewrite Hc, IH.
Qed.

(** The days and the clock of [str(timedelta)], without the microseconds. *)
Lemma clock_no_dot (days hh mm ss : Z) :
  has_dot
    (if (days =? 0)%Z
     then decimal hh ++ ":" ++ padded 2 (decimal mm) ++ ":" ++ padded 2 (decimal ss)
     else decimal days ++ " day" ++ (if (Z.abs days =? 1)%Z then "" else "s") ++ ", "
          ++ decimal hh ++ ":" ++ padded 2 (decimal mm) ++ ":" ++ padded 2 (decimal ss))%string
  = false.
Proof.
  assert (H : has_dot (decimal hh ++ ":" ++ padded 2 (decimal mm) ++ ":"
                       ++ padded 2 (decimal ss))%string = false).
  { rewrite !has_dot_app, decimal_no_dot, !padded_no_dot by apply decimal_no_dot.
    reflexivity. }
  destruct (days =? 0); [exact H|].
  rewrite has_dot_app, decimal_no_dot. cbn [orb].
  change (has_dot (" day" ++ ?x)) with (has_dot x).
  rewrite has_dot_app. destruct (Z.abs days =? 1); cbn [has_dot orb];
    change (has_dot (", " ++ ?x)) with (has_dot x); exact H.
Qed.

Lemma whole_seconds (us : Z) :
  (us - us mod 1000000) / 86400000000 = us / 86400000000
  /\ ((us - us mod 1000000) mod 86400000000) / 1000000
     = (us mod 86400000000) / 1000000
  /\ ((us - us mod 1000000) mod 86400000000) mod 1000000 = 0
  /\ us mod 1000000 = (us mod 86400000000) mod 1000000.
Proof.
  pose proof (Z.div_mod us 86400000000 ltac:(lia)) as Hd.
  pose proof (Z.mod_pos_bound us 86400000000 ltac:(lia)) as Hr.
  set (d := us / 86400000000) in *. set (r := us mod 86400000000) in *.
  pose proof (Z.div_mod r 1000000 ltac:(lia)) as Hq.
  pose proof (Z.mod_pos_bound r 1000000 ltac:(lia)) as Hm.
  set (q := r / 1000000) in *. set (m := r mod 1000000) in *.
  assert (E : us mod 1000000 = m).
  { symmetry. apply (Z.mod_unique us 1000000 (86400 * d + q) m); lia. }
  rewrite E.
  assert (E1 : (us - m) / 86400000000 = d).
  { symmetry. apply (Z.div_unique (us - m) 86400000000 d (1000000 * q)); lia. }
  assert (E2 : (us - m) mod 86400000000 = 1000000 * q).
  { symmetry. apply (Z.mod_unique (us - m) 86400000000 d (1000000 * q)); lia. }
  rewrite E1, E2. repeat split.
  - symmetry. apply (Z.div_unique (1000000 * q) 1000000 q 0); lia.
  - symmetry. apply (Z.mod_unique (1000000 * q) 1000000 q 0); lia.
Qed.

Example timedelta_str_samples :
  map timedelta_str [ 0; 5500000; -5500000; 86400000000; 176523000004 ]
  = [ "0:00:00"; "0:00:05.500000"; "-1 day, 23:59:54.500000"; "1 day, 0:00:00";
      "2 days, 1:02:03.000004" ]%string
  /\ map (fun us => before_dot (timedelta_str us)) [ 5500000; -5500000 ]
     = [ "0:00:05"; "-1 day, 23:59:54" ]%string.
Proof. split; reflexivity. Qed.

(** Cutting the text at the dot gives the text of the span without its
    microseconds. *)
Lemma before_dot_timedelta (us : Z) :
  before_dot (timedelta_str us) = timedelta_str (us - us mod 1000000).
Proof.
  destruct (whole_seconds us) as (Hd & Hs & Hm & _).
  unfold timedelta_str. cbv zeta. rewrite Hd, Hs, Hm. cbn [Z.eqb].
  destruct ((us mod 86400000000) mod 1000000 =? 0).
  - apply before_dot_all, clock_no_dot.
  - apply before_dot_app, clock_no_dot.
Qed.

(** X16: the web pages score like the session class.  For the questions
    of one file, answers posted to the web pages leave results with the
    same question, correctness and points as the same answers, stripped,
    submitted to a [TestSession]; and the result page shows the total
    points, max points and percentage that [finish_test] returns, and as
    duration the text of the duration of [finish_test] without its
    microseconds (or, without any result, redirects to the start page). *)
Theorem web_scores_like_session (raw : list Data.t) (texts : list string) (now0 now1 : Z) :
  raw <> [] ->
  Forall2 same_score
    (Data.get (test_results (serve (GetStartTest None [] now0 :: posts texts)
                                   (session_with raw))) [])
    (TestSession.results
       (run (TestSession.StartTest now0 :: submissions texts)
            (TestSession.init (map Question_init raw))))
  /\ exists sm cli',
       TestSession.finish_test now1
         (run (TestSession.StartTest now0 :: submissions texts)
              (TestSession.init (map Question_init raw)))
       = (inr sm, cli')
       /\ match Data.get (test_results (serve (GetStartTest None [] now0 :: posts texts)
                                              (session_with raw))) [] with
          | [] =>
              fst (test_complete now1 (serve (GetStartTest None [] now0 :: posts texts)
                                             (session_with raw)))
              = Redirect "index" (Some "No test results found."%string)
          | rs =>
              fst (test_complete now1 (serve (GetStartTest None [] now0 :: posts texts)
                                             (session_with raw)))
              = TestCompletePage rs (TestSession.total_points sm)
                                 (TestSession.max_points sm)
                                 (TestSession.percentage sm)
                                 (timedelta_str
                                    (TestSession.duration sm
                                     - TestSession.duration sm mod 1000000))
          end.
Proof.
  intros Hne.
  set (w0 := snd (start_test None [] now0 (session_with raw))).
  set (s0 := TestSession.after (TestSession.StartTest now0)
                               (TestSession.init (map Question_init raw))).
  change (serve (GetStartTest None [] now0 :: posts texts) (session_with raw))
    with (serve (posts texts) w0).
  change (run (TestSession.StartTest now0 :: submissions texts)
              (TestSession.init (map Question_init raw)))
    with (run (submissions texts) s0).
  assert (Hw0 : w0 = mk_session (Some (loaded_questions raw))
                                (Some (loaded_questions raw)) (Some 0%nat) (Some [])
                                (Some now0) (Some false)).
  { unfold w0, start_test, session_with, loaded_questions. simpl.
    destruct raw; [contradiction | reflexivity]. }
  destruct (@posts_like_submits texts w0 s0) as (Hres & Hwt & Hst).
  - rewrite Hw0. simpl. apply loaded_questions_init.
  - rewrite Hw0. reflexivity.
  - rewrite Hw0. constructor.
  - split; [exact Hres|].
    rewrite (@finish_test_ok now1 now0 (run (submissions texts) s0) Hst).
    do 2 eexists. split; [reflexivity|]. cbn [TestSession.total_points TestSession.max_points TestSession.percentage
         TestSession.duration].
    destruct (same_score_sums Hres) as [Hp Hm]. rewrite <- Hp, <- Hm.
    unfold test_complete.
    destruct (Data.get (test_results (serve (posts texts) w0)) []) as [|r rs];
      [reflexivity|].
    cbn [fst]. rewrite Hwt, Hw0. cbn [test_start_time].
    now rewrite before_dot_timedelta.
Qed.

Lemma web_scores_like_session_witness :
  Forall2 same_score
    (Data.get (test_results
                 (serve (GetStartTest None [] 0 :: posts [ " 2 "; "True" ])
                        (session_with [ question_dict Demo.demo1;
                                        question_dict Demo.demo2 ]))) [])
    (TestSession.results
       (run (TestSession.StartTest 0 :: submissions [ " 2 "; "True" ])
            (TestSession.init
               (map Question_init [ question_dict Demo.demo1;
                                    question_dict Demo.demo2 ])))).
Proof.
  apply (@web_scores_like_session
           [ question_dict Demo.demo1; question_dict Demo.demo2 ]
           [ " 2 "; "True" ] 0 9).
  discriminate.
Defined.

(** *** What the results show *)

Lemma isdigit_char_not_space (c : ascii) :
  isdigit_char c = true -> PyStr.isspace c = false.
Proof. destruct c as [[] [] [] [] [] [] [] []]; vm_compute; congruence. Qed.

Lemma strip_all_digits (s : string) : all_digits s = true -> PyStr.strip s = s.
Proof.
  intros H. unfold PyStr.strip.
  assert (Hl : PyStr.lstrip s = s).
  { destruct s as [|c t]; [reflexivity|]. simpl in *.
    apply andb_prop in H as [Hc _]. now rewrite (isdigit_char_not_space _ Hc). }
  rewrite Hl. induction s as [|c t IH]; [reflexivity|].
  simpl in H. apply andb_prop in H as [Hc Ht]. simpl.
  rewrite (isdigit_char_not_space _ Hc). simpl. f_equal. apply IH; [exact Ht|].
  destruct t as [|c' t']; [reflexivity|]. simpl in *.
  apply andb_prop in Ht as [Hc' _]. now rewrite (isdigit_char_not_space _ Hc').
Qed.

Lemma uint_all_digits (u : Decimal.uint) :
  all_digits (NilEmpty.string_of_uint u) = true.
Proof. induction u; simpl; auto. Qed.

Lemma numeral_isdigit (n : nat) : isdigit (Spec.numeral n) = true.
Proof.
  unfold isdigit, Spec.numeral. rewrite uint_all_digits, andb_true_r.
  pose proof (to_uint_nonnil n) as N.
  destruct (Nat.to_uint n); [contradiction|..]; reflexivity.
Qed.

Lemma numeral_strip (n : nat) : PyStr.strip (Spec.numeral n) = Spec.numeral n.
Proof. apply strip_all_digits, uint_all_digits. Qed.

Lemma option_or_nth (options : list string) (i : nat) (o kept : string) :
  nth_error options i = Some o -> option_or options (Z.of_nat i) kept = o.
Proof.
  intros H. unfold option_or.
  assert (Hlt : (i < List.length options)%nat) by (apply nth_error_Some; congruence).
  replace ((0 <=? Z.of_nat i) && (Z.of_nat i <? Z.of_nat (List.length options)))
    with true
    by (symmetry; apply andb_true_intro; split; [apply Z.leb_le | apply Z.ltb_lt]; lia).
  now rewrite Nat2Z.id, H.
Qed.

Lemma letter_index_spec (c : ascii) (k : nat) :
  letter_index c = Some k ->
  isalpha_char c = true /\ upper_ord c = Some (Z.of_nat k + 65).
Proof.
  destruct c as [[] [] [] [] [] [] [] []];
    intros E; try discriminate E; injection E as <-; split; reflexivity.
Qed.

Lemma user_answer_display_numeral (q : Question.t) (i : nat) (o : string) :
  Question.type q = "multiple_choice"%string ->
  nth_error (Question.options q) i = Some o ->
  user_answer_display q (Spec.numeral (S i)) = o.
Proof.
  intros Ht Ho. unfold user_answer_display.
  rewrite Ht, numeral_isdigit, int_numeral. simpl andb. cbv iota.
  replace (Z.of_nat (S i) - 1) with (Z.of_nat i) by lia.
  now apply option_or_nth.
Qed.

(** X17: when the number of an option is posted for a multiple-choice
    question, the stored result shows the text of that option as the
    user's answer, and it is scored correct exactly when that text is the
    question's correct answer. *)
Theorem web_shows_selected_option (s : Session) (d : Data.t) (i : nat) (o : string) :
  nth_error (Data.get (test_questions s) []) (Data.get (current_question s) 0%nat)
  = Some d ->
  Question.type (Question_init d) = "multiple_choice"%string ->
  nth_error (Question.options (Question_init d)) i = Some o ->
  exists r,
    test_results (snd (submit_answer (Some (Spec.numeral (S i))) s))
    = Some (Data.get (test_results s) [] ++ [r])%list
    /\ Result.user_answer r = o
    /\ Result.is_correct r
       = (o =? Question.correct_answer (Question_init d))%string
    /\ Result.points_earned r
       = if Result.is_correct r then Question.points (Question_init d) else 0.
Proof.
  intros Hn Ht Ho. rewrite (@web_submit_ok _ s d Hn).
  eexists. split; [reflexivity|]. cbn [Data.get]. rewrite numeral_strip.
  unfold web_recorded. cbn [Result.user_answer Result.is_correct Result.points_earned].
  split; [now apply user_answer_display_numeral|].
  rewrite (@check_answer_choice_eq _ _ (Z.of_nat (S i)) o Ht (int_numeral (S i)));
    [now split | | lia].
  replace (Z.to_nat (Z.of_nat (S i) - 1)) with i by lia. exact Ho.
Qed.

Lemma web_shows_selected_option_witness :
  exists r,
    test_results
      (snd (submit_answer (Some (Spec.numeral 2))
              (serve [ GetStartTest None [] 0 ]
                     (session_with [ question_dict Demo.demo1 ]))))
    = Some ([] ++ [r])%list
    /\ Result.user_answer r = "4"%string
    /\ Result.is_correct r = ("4" =? "4")%string
    /\ Result.points_earned r = if Result.is_correct r then 1 else 0.
Proof.
  apply (@web_shows_selected_option
           (serve [ GetStartTest None [] 0 ] (session_with [ question_dict Demo.demo1 ]))
           (question_dict Demo.demo1) 1 "4"); reflexivity.
Defined.

(** X18: a multiple-choice question whose correct answer is a single
    letter that stands for an option, and is itself not an option, can
    never be answered correctly: every posted answer is stored as
    incorrect with 0 points, while the result shows the option of that
    letter as the correct answer, also when the user chose that very
    option. *)
Theorem web_letter_answer_never_correct
      (s : Session) (d : Data.t) (c : ascii) (k : nat) (o : string) :
  nth_error (Data.get (test_questions s) []) (Data.get (current_question s) 0%nat)
  = Some d ->
  Question.type (Question_init d) = "multiple_choice"%string ->
  Question.correct_answer (Question_init d) = String c EmptyString ->
  letter_index c = Some k ->
  nth_error (Question.options (Question_init d)) k = Some o ->
  ~ In (String c EmptyString) (Question.options (Question_init d)) ->
  (forall form_answer, exists r,
      test_results (snd (submit_answer form_answer s))
      = Some (Data.get (test_results s) [] ++ [r])%list
      /\ Result.correct_answer r = o
      /\ Result.is_correct r = false
      /\ Result.points_earned r = 0)
  /\ (exists r,
        test_results (snd (submit_answer (Some (Spec.numeral (S k))) s))
        = Some (Data.get (test_results s) [] ++ [r])%list
        /\ Result.user_answer r = o
        /\ Result.correct_answer r = o
        /\ Result.is_correct r = false).
Proof.
  intros Hn Ht Hc Hk Ho Hno.
  assert (Hshow : correct_answer_display (Question_init d) = o).
  { unfold correct_answer_display. rewrite Ht, Hc.
    destruct (letter_index_spec _ Hk) as [-> ->]. simpl.
    replace (Z.of_nat k + 65 - 65) with (Z.of_nat k) by lia.
    now apply option_or_nth. }
  assert (Hscore : forall a, Question.check_answer (Question_init d) a = (false, 0)).
  { intros a. apply no_correct_choice; [exact Ht | now rewrite Hc]. }
  split.
  - intros form. rewrite (@web_submit_ok form s d Hn).
    eexists. split; [reflexivity|]. unfold web_recorded.
    cbn [Result.correct_answer Result.is_correct Result.points_earned].
    now rewrite Hscore.
  - rewrite (@web_submit_ok _ s d Hn).
    eexists. split; [reflexivity|]. cbn [Data.get]. rewrite numeral_strip.
    unfold web_recorded.
    cbn [Result.user_answer Result.correct_answer Result.is_correct].
    rewrite Hscore. split; [now apply user_answer_display_numeral | now split].
Qed.

Lemma web_letter_answer_never_correct_witness :
  exists r,
    test_results
      (snd (submit_answer (Some (Spec.numeral 2))
              (serve [ GetStartTest None [] 0 ]
                     (session_with [ question_dict lettered ]))))
    = Some ([] ++ [r])%list
    /\ Result.user_answer r = "Tokyo"%string
    /\ Result.correct_answer r = "Tokyo"%string
    /\ Result.is_correct r = false.
Proof.
  apply (@web_letter_answer_never_correct
           (serve [ GetStartTest None [] 0 ] (session_with [ question_dict lettered ]))
           (question_dict lettered) "B"%char 1 "Tokyo"); try reflexivity.
  simpl. intros [H|[H|[H|[]]]]; discriminate H.
Defined.

End WebPages.

(** ** The detailed results *)

Section Details.

Import TestSession.

Lemma detailed_rows_recorded (rs : list Result.t) (l pre post : list Question.t) :
  Forall2 (fun q r => exists a, r = recorded q a) l rs ->
  exists rows,
    detailed_rows (S (List.length pre)) rs (pre ++ l ++ post)%list = (rows, None)
    /\ map (fun row => snd row) rows = rs
    /\ map (fun row => fst (fst row)) rows
       = seq (S (List.length pre)) (List.length rs)
    /\ Forall (fun row => snd (fst row) = Result.question (snd row)) rows.
Proof.
  intros H. revert pre. induction H as [|q r l rs [a E] _ IH]; intros pre.
  - exists []. repeat split. constructor.
  - destruct (IH (pre ++ [q])%list) as (rows & Hd & Hr & Hi & Hq).
    rewrite length_app, Nat.add_1_r, <- app_assoc in Hd. simpl in Hd.
    rewrite length_app, Nat.add_1_r in Hi.
    exists ((S (List.length pre), Question.question q, r) :: rows).
    cbn [detailed_rows]. rewrite Nat.sub_1_r. cbn [Nat.pred].
    rewrite nth_error_app2 by apply Nat.le_refl. rewrite Nat.sub_diag.
    cbn [app nth_error]. rewrite Hd. simpl. rewrite Hr, Hi.
    repeat split. constructor; [|exact Hq]. now rewrite E.
Qed.

(** X19: on every session a caller can see, [show_detailed_results]
    raises no [IndexError]; it prints one block per recorded result, in
    order and numbered from 1, and the question text above each block is
    the text of the question the result was recorded for. *)
Theorem show_detailed_results_matches (qs : list Question.t) (s : t) :
  reachable qs s ->
  exists rows,
    show_detailed_results s = (rows, None)
    /\ map (fun row => snd row) rows = results s
    /\ map (fun row => fst (fst row)) rows = seq 1 (List.length (results s))
    /\ Forall (fun row => snd (fst row) = Result.question (snd row)) rows.
Proof.
  intros H. apply reachable_consistent in H. destruct H as (Hq & _ & _ & Hr).
  destruct (@detailed_rows_recorded
              (results s) (firstn (current_question_index s) qs) []
              (skipn (current_question_index s) qs) Hr) as (rows & Hd & Hrest).
  cbn [app List.length] in Hd. rewrite firstn_skipn in Hd.
  exists rows. unfold show_detailed_results. rewrite Hq. split; [exact Hd | exact Hrest].
Qed.

Lemma show_detailed_results_matches_witness :
  exists rows,
    show_detailed_results Demo.answered = (rows, None)
    /\ map (fun row => snd row) rows = results Demo.answered
    /\ map (fun row => fst (fst row)) rows
       = seq 1 (List.length (results Demo.answered))
    /\ Forall (fun row => snd (fst row) = Result.question (snd row)) rows.
Proof.
  apply (@show_detailed_results_matches Demo.questions).
  unfold Demo.answered, Demo.started. repeat apply reach_call. apply reach_init.
Defined.

End Details.

(** ** Perfect and empty scores *)

Section Scores.

Import TestSession.
Local Open Scope Z_scope.

Lemma recorded_all_or_nothing (l : list Question.t) (rs : list Result.t) :
  Forall2 (fun q r => exists a, r = recorded q a) l rs ->
  Forall (fun q => 0 < Question.points q) l ->
  0 <= sum (map Result.points_earned rs) <= sum (map Result.max_points rs)
  /\ (rs <> [] -> 0 < sum (map Result.max_points rs))
  /\ (sum (map Result.points_earned rs) = sum (map Result.max_points rs)
      <-> Forall (fun r => Result.is_correct r = true) rs)
  /\ (sum (map Result.points_earned rs) = 0
      <-> Forall (fun r => Result.is_correct r = false) rs).
Proof.
  induction 1 as [|q r l rs [a E] _ IH]; intros Hp.
  - unfold sum. simpl. repeat split; auto; try lia. congruence.
  - pose proof (Forall_inv Hp) as Hq. cbv beta in Hq. apply Forall_inv_tail in Hp.
    destruct (IH Hp) as (Hb & _ & Hall & Hnone).
    cbn [map]. rewrite !sum_cons.
    assert (He : Result.points_earned r
                 = if Result.is_correct r then Result.max_points r else 0)
      by (rewrite E; simpl; apply check_answer_binary).
    assert (Hm : Result.max_points r = Question.points q) by now rewrite E.
    rewrite He, Hm.
    split; [destruct (Result.is_correct r); lia|].
    split; [intros _; lia|]. split.
    + split.
      * intros H. destruct (Result.is_correct r) eqn:Hc; [|lia].
        constructor; [exact Hc|]. apply Hall. lia.
      * intros H. pose proof (Forall_inv H) as Hc. apply Forall_inv_tail in H.
        apply Hall in H. rewrite Hc. lia.
    + split.
      * intros H. destruct (Result.is_correct r) eqn:Hc; [lia|].
        constructor; [exact Hc|]. apply Hnone. lia.
      * intros H. pose proof (Forall_inv H) as Hc. apply Forall_inv_tail in H.
        apply Hnone in H. rewrite Hc. lia.
Qed.

(** X20: when every question has positive points, on every session a
    caller can see, the total points of the summary equal its max points
    exactly when every recorded answer was scored correct, and are 0
    exactly when none was. *)
Theorem score_full_or_zero (qs : list Question.t) (s : t) (now st : Z) :
  Forall (fun q => 0 < Question.points q) qs ->
  reachable qs s ->
  start_time s = Some st ->
  exists sm s',
    finish_test now s = (inr sm, s')
    /\ (total_points sm = max_points sm
        <-> Forall (fun r => Result.is_correct r = true) (results s))
    /\ (total_points sm = 0
        <-> Forall (fun r => Result.is_correct r = false) (results s)).
Proof.
  intros Hp Hr Hst. apply reachable_consistent in Hr.
  destruct Hr as (_ & _ & _ & Hrec).
  destruct (recorded_all_or_nothing Hrec (Forall_firstn_keeps _ Hp))
    as (_ & _ & Hall & Hnone).
  rewrite (@finish_test_ok now st s Hst). do 2 eexists. split; [reflexivity|].
  cbn [total_points max_points]. split; assumption.
Qed.

Lemma score_full_or_zero_witness :
  exists sm s',
    finish_test 7 Demo.answered = (inr sm, s')
    /\ (total_points sm = max_points sm
        <-> Forall (fun r => Result.is_correct r = true) (results Demo.answered))
    /\ (total_points sm = 0
        <-> Forall (fun r => Result.is_correct r = false) (results Demo.answered)).
Proof.
  apply (@score_full_or_zero Demo.questions Demo.answered 7 0).
  - repeat constructor.
  - unfold Demo.answered, Demo.started. repeat apply reach_call. apply reach_init.
  - reflexivity.
Defined.

End Scores.
